(** * KaajAI loan underwriting pipeline: a shallow embedding and its properties

    The development follows the Python sources under [backend/]:

    - [agents/financial_analyzer.py]  (module [FinancialAnalyzer])
    - [agents/risk_assessor.py]       (module [RiskAssessor])
    - [agents/memo_generator.py]      (module [MemoGenerator])
    - [agents/orchestrator.py]        (module [Orchestrator])
    - [api/routes.py]                 (module [Routes])

    Number model.  A Python [float] is read as the exact rational it denotes
    (type [Q]); a Python [int] is a [Z].  Arithmetic is exact: binary rounding
    error, overflow, infinities and NaN are outside the model.  [round],
    [int], [min], [max], [math.pow] and the [format] mini-language are written
    out below as Python defines them.  Exceptions are values of an error
    monad ([sum exn], ExtLib's [Monad_either]). *)

From Stdlib Require Import ZArith QArith Qround Qabs Qpower Lia Lqa.
From Stdlib Require Import List String Ascii DecimalString Bool.
From Stdlib Require Import Morphisms Setoid Permutation.
From ExtLib Require Import Structures.Monad Structures.MonadExc.
From ExtLib Require Import Data.Monads.EitherMonad.
Import ListNotations.
Import MonadNotation.

Local Open Scope monad_scope.
Local Open Scope string_scope.
Local Open Scope Z_scope.
Local Open Scope Q_scope.

(** ** Python built-ins on exact numbers *)

Module Py.

(** The exceptions the modelled code can raise. *)
Inductive exn : Type :=
| ZeroDivisionError
| ValueError
| KeyError (key : string).

(** [str(e)], as CPython words it. *)
Definition str_exn (e : exn) : string :=
  match e with
  | ZeroDivisionError => "float division by zero"
  | ValueError => "math domain error"
  | KeyError key => "'" ++ key ++ "'"
  end.

(** The error monad of the pipeline: [inl e] is a raised exception. *)
Abbreviation result := (sum exn).

(** [d.get(key, default)] on a key that may be absent. *)
Definition get {A : Type} (field : option A) (default : A) : A :=
  match field with
  | Some v => v
  | None => default
  end.

(** [d[key]] on a key that may be absent. *)
Definition index {A : Type} (key : string) (field : option A) : result A :=
  match field with
  | Some v => ret v
  | None => raise (KeyError key)
  end.

(** Comparisons. [a > b] is [Qltb b a], [a >= b] is [Qleb b a]. *)
Definition Qltb (x y : Q) : bool := (Qnum x * QDen y <? Qnum y * QDen x)%Z.
Definition Qleb (x y : Q) : bool := Qle_bool x y.
Definition Qeqb (x y : Q) : bool := Qeq_bool x y.

(** [max(a, b)]: the first argument unless the second is strictly larger. *)
Definition max (a b : Q) : Q := if Qltb a b then b else a.

(** [min(a, b)]: the first argument unless the second is strictly smaller. *)
Definition min (a b : Q) : Q := if Qltb b a then b else a.

(** [min(a, b)] on two ints. *)
Definition min_int (a b : Z) : Z := if (b <? a)%Z then b else a.

(** [int(x)]: truncation toward zero. *)
Definition int (x : Q) : Z := Z.quot (Qnum x) (Zpos (Qden x)).

(** [sum(xs)]: left-to-right accumulation from [0]. *)
Definition sum (xs : list Q) : Q := fold_left Qplus xs 0.

(** [len(xs)] as a number. *)
Definition len {A : Type} (xs : list A) : Q := inject_Z (Z.of_nat (List.length xs)).

(** [xs[a:b]] for [0 <= a <= b]. *)
Definition slice {A : Type} (a b : nat) (xs : list A) : list A :=
  firstn (b - a) (skipn a xs).

(** [xs.append(x)] *)
Definition append {A : Type} (xs : list A) (x : A) : list A := (xs ++ [x])%list.

(** [if c: xs.append(x)] *)
Definition append_if {A : Type} (c : bool) (x : A) (xs : list A) : list A :=
  if c then append xs x else xs.

(** [try: body except Exception as e: handler(e)] *)
Definition try_except {A : Type} (body : result A) (handler : exn -> A) : A :=
  match body with
  | inr v => v
  | inl e => handler e
  end.

(** Nearest integer, ties to the even one: the rule of [round] and of the
    [f] and [%] presentation types. *)
Definition round_half_even (x : Q) : Z :=
  let f := Qfloor x in
  match Qcompare (x - inject_Z f) (1 # 2) with
  | Lt => f
  | Gt => (f + 1)%Z
  | Eq => if Z.even f then f else (f + 1)%Z
  end.

Definition pow10 (n : nat) : positive := Nat.iter n (Pos.mul 10) 1%positive.

(** [round(x, ndigits)]. *)
Definition round (x : Q) (ndigits : nat) : Q :=
  round_half_even (x * inject_Z (Zpos (pow10 ndigits))) # pow10 ndigits.

(** [math.pow(x, n)] for an integral exponent: a zero base with a negative
    exponent is a domain error. *)
Definition math_pow (x : Q) (n : Z) : result Q :=
  if Qeqb x 0 && (n <? 0)%Z then raise ValueError else ret (x ^ n).

(** [a / b] where the source does not guard the divisor. *)
Definition div (a b : Q) : result Q :=
  if Qeqb b 0 then raise ZeroDivisionError else ret (a / b).

(** *** The [format] mini-language on exact numbers *)

Definition digits (n : Z) : string := NilZero.string_of_uint (N.to_uint (Z.to_N n)).

(** [str(n)] for an int. *)
Definition str_int (n : Z) : string :=
  if (n <? 0)%Z then "-" ++ digits (- n) else digits n.

Fixpoint pad_left (fuel width : nat) (s : string) : string :=
  match fuel with
  | O => s
  | S k => if (String.length s <? width)%nat then pad_left k width ("0" ++ s) else s
  end.

(** [s] with zeros in front up to [width] characters. *)
Definition zero_pad (width : nat) (s : string) : string := pad_left width width s.

(** Thousands separators of the [,] option: a comma before every group of
    three digits counted from the right.  Every step drops three digits, so
    the number of digits is fuel enough. *)
Fixpoint group3 (fuel : nat) (n : Z) : string :=
  match fuel with
  | O => digits n
  | S k =>
      if (n <? 1000)%Z then digits n
      else group3 k (n / 1000) ++ "," ++ zero_pad 3 (digits (n mod 1000))
  end.

(** [format(x, '.<nd>f')], with [,] grouping when [comma] is set: the sign,
    the integer part, and [nd] decimals of the half-even rounding. *)
Definition format_fixed (comma : bool) (nd : nat) (x : Q) : string :=
  let scale := Zpos (pow10 nd) in
  let m := round_half_even (Qabs x * inject_Z scale) in
  let ip := (m / scale)%Z in
  let fp := (m mod scale)%Z in
  (if Qltb x 0 then "-" else "")
  ++ (if comma then group3 (String.length (digits ip)) ip else digits ip)
  ++ match nd with
     | O => ""
     | S _ => "." ++ zero_pad nd (digits fp)
     end.

(** [f"{x:.2f}"] *)
Definition fmt_2f (x : Q) : string := format_fixed false 2 x.
(** [f"{x:,.2f}"] *)
Definition fmt_comma_2f (x : Q) : string := format_fixed true 2 x.
(** [f"{x:.1%}"] *)
Definition fmt_pct1 (x : Q) : string := format_fixed false 1 (x * 100) ++ "%".

(** *** numpy's mean and sample standard deviation

    A standard deviation is a square root, which is no rational: it is kept
    as the exact real [coef * sqrt radicand] until [round] turns it into a
    decimal again. *)

Record surd : Type := { coef : Q; radicand : Q }.

(** [np.mean(xs)] *)
Definition np_mean (xs : list Q) : Q := sum xs / len xs.

(** [np.std(xs, ddof=ddof)]: the root of the squared deviations' sum over
    [len(xs) - ddof]. *)
Definition np_std (xs : list Q) (ddof : Z) : surd :=
  let m := np_mean xs in
  {| coef := 1;
     radicand := sum (map (fun x => (x - m) * (x - m)) xs)
                 / (len xs - inject_Z ddof) |}.

(** [s / d] for a root [s] and a non-zero number [d]. *)
Definition surd_div (s : surd) (d : Q) : surd :=
  {| coef := coef s / d; radicand := radicand s |}.

(** The integer nearest to [sqrt y] for [0 <= y], ties to even:
    [floor (sqrt y)] is the integer root of [floor y], and [sqrt y] is
    compared with the midpoint through the squares. *)
Definition round_sqrt (y : Q) : Z :=
  let s := Z.sqrt (Qfloor y) in
  match Qcompare y ((inject_Z s + (1 # 2)) * (inject_Z s + (1 # 2))) with
  | Lt => s
  | Gt => (s + 1)%Z
  | Eq => if Z.even s then s else (s + 1)%Z
  end.

(** [round(s, ndigits)] for a root [s]: the magnitude of [s * 10^ndigits]
    is the root of its square, and half-even rounding is odd. *)
Definition round_surd (s : surd) (ndigits : nat) : Q :=
  let c := coef s * inject_Z (Zpos (pow10 ndigits)) in
  let m := round_sqrt (c * c * radicand s) in
  (if Qltb (coef s) 0 then (- m)%Z else m) # pow10 ndigits.

End Py.

(** ** agents/financial_analyzer.py *)

Module FinancialAnalyzer.
Import Py.

Definition calculate_avg_monthly_revenue (monthly_deposits : list Q) : Q :=
  match monthly_deposits with
  | [] => 0
  | _ :: _ =>
      let avg := sum monthly_deposits / len monthly_deposits in
      round avg 2
  end.

Definition calculate_revenue_volatility (monthly_revenue : list Q) : Q :=
  match monthly_revenue with
  | [] | [_] => 0
  | _ :: _ :: _ =>
      let mean := np_mean monthly_revenue in
      if Qeqb mean 0 then 0
      else
        let std_dev := np_std monthly_revenue 1 in
        let volatility := surd_div std_dev mean in
        round_surd volatility 4
  end.

Definition calculate_monthly_payment
    (loan_amount annual_interest_rate : Q) (term_months : Z) : result Q :=
  if Qeqb loan_amount 0 || (term_months =? 0)%Z then ret 0
  else if Qeqb annual_interest_rate 0 then
    ret (round (loan_amount / inject_Z term_months) 2)
  else
    let monthly_rate := annual_interest_rate / 12 in
    p <- math_pow (1 + monthly_rate) term_months ;;
    let numerator := monthly_rate * p in
    p' <- math_pow (1 + monthly_rate) term_months ;;
    let denominator := p' - 1 in
    factor <- div numerator denominator ;;
    let payment := loan_amount * factor in
    ret (round payment 2).

Definition calculate_dscr
    (monthly_cash_flow loan_amount annual_interest_rate : Q)
    (term_months : Z) : result Q :=
  monthly_payment <-
    calculate_monthly_payment loan_amount annual_interest_rate term_months ;;
  if Qeqb monthly_payment 0 then ret 0
  else
    let dscr := monthly_cash_flow / monthly_payment in
    ret (round dscr 2).

Definition calculate_debt_to_revenue_ratio (total_debt annual_revenue : Q) : Q :=
  if Qeqb annual_revenue 0 then 0
  else
    let ratio := total_debt / annual_revenue in
    round ratio 2.

(** The four components whose sum [calculate_stability_score] clamps. *)
Definition volatility_score (revenue_volatility : Q) : Q :=
  max 0 ((1 - min revenue_volatility 1) * 40).

Definition age_score (business_age_years : Z) : Q :=
  inject_Z (min_int business_age_years 10) / 10 * 30.

Definition nsf_score (nsf_fees_count : Z) : Q :=
  if (nsf_fees_count =? 0)%Z then 30
  else if (nsf_fees_count <=? 2)%Z then 20
  else if (nsf_fees_count <=? 5)%Z then 10
  else 0.

Definition trend_bonus (revenue_trend : Q) : Q := revenue_trend * 10.

Definition calculate_stability_score
    (revenue_volatility : Q) (business_age_years nsf_fees_count : Z)
    (revenue_trend : Q) : Z :=
  let base_score :=
    volatility_score revenue_volatility + age_score business_age_years
    + nsf_score nsf_fees_count in
  let final_score := base_score + trend_bonus revenue_trend in
  int (max 0 (min 100 final_score)).

(** The dicts [analyze] reads.  A key that may be absent is an [option]
    field; only the keys the code looks up are kept. *)
Record BankData : Type := {
  monthly_deposits : option (list Q);
  monthly_withdrawals : option (list Q);
  nsf_fees : option Z
}.

Record TaxData : Type := {
  gross_revenue : option Q;
  net_income : option Q
}.

Record ExtractedData : Type := {
  bank_data : option BankData;
  tax_data : option TaxData;
  existing_debt : option Q
}.

Record LoanRequest : Type := {
  loan_amount : option Q;
  annual_interest_rate : option Q;
  term_months : option Z;
  business_age_years : option Z
}.

(** The empty dict [{}] at the two record types. *)
Definition no_bank_data : BankData :=
  {| monthly_deposits := None; monthly_withdrawals := None; nsf_fees := None |}.
Definition no_tax_data : TaxData :=
  {| gross_revenue := None; net_income := None |}.

(** A [metrics] dict: the ten keys [analyze] writes, each of which a
    reader of the dict may find absent. *)
Record Metrics : Type := {
  m_avg_monthly_revenue : option Q;
  m_revenue_volatility : option Q;
  m_avg_monthly_cash_flow : option Q;
  m_dscr : option Q;
  m_debt_to_revenue : option Q;
  m_annual_revenue : option Q;
  m_net_income : option Q;
  m_stability_score : option Z;
  m_total_debt : option Q;
  m_revenue_trend : option Q
}.

(** [FinancialAnalyzerAgent.analyze]; the result is the dict under the
    single key ["metrics"]. *)
Definition analyze (extracted_data : ExtractedData) (loan_request : LoanRequest)
    : result Metrics :=
  let bank := get (bank_data extracted_data) no_bank_data in
  let deposits := get (monthly_deposits bank) [] in
  let withdrawals := get (monthly_withdrawals bank) [] in
  let nsf := get (nsf_fees bank) 0%Z in
  let tax := get (tax_data extracted_data) no_tax_data in
  let annual_revenue := get (gross_revenue tax) 0 in
  let net := get (net_income tax) 0 in
  let amount := get (loan_amount loan_request) 0 in
  let rate := get (annual_interest_rate loan_request) 0.08 in
  let term := get (term_months loan_request) 60%Z in
  let age := get (business_age_years loan_request) 0%Z in
  let debt := get (existing_debt extracted_data) 0 in
  let avg_monthly_revenue := calculate_avg_monthly_revenue deposits in
  let revenue_volatility := calculate_revenue_volatility deposits in
  let avg_monthly_cash_flow :=
    match deposits, withdrawals with
    | _ :: _, _ :: _ =>
        let deposits_avg := sum deposits / len deposits in
        let withdrawals_avg := sum withdrawals / len withdrawals in
        deposits_avg - withdrawals_avg
    | _, _ => 0
    end in
  new_loan_payment <- calculate_monthly_payment amount rate term ;;
  existing_debt_payment <- calculate_monthly_payment debt rate term ;;
  let total_monthly_payment := new_loan_payment + existing_debt_payment in
  let dscr :=
    if Qeqb total_monthly_payment 0 then 0
    else round (avg_monthly_cash_flow / total_monthly_payment) 2 in
  let total_debt := debt + amount in
  let revenue_for_ratio :=
    if Qltb 0 annual_revenue then annual_revenue else avg_monthly_revenue * 12 in
  let debt_to_revenue :=
    calculate_debt_to_revenue_ratio total_debt revenue_for_ratio in
  let revenue_trend :=
    if (12 <=? List.length deposits)%nat then
      let first_half := sum (slice 0 6 deposits) / 6 in
      let second_half := sum (slice 6 12 deposits) / 6 in
      if Qltb 0 first_half then (second_half - first_half) / first_half else 0
    else 0 in
  let stability_score :=
    calculate_stability_score revenue_volatility age nsf revenue_trend in
  ret {| m_avg_monthly_revenue := Some (round avg_monthly_revenue 2);
         m_revenue_volatility := Some revenue_volatility;
         m_avg_monthly_cash_flow := Some (round avg_monthly_cash_flow 2);
         m_dscr := Some dscr;
         m_debt_to_revenue := Some debt_to_revenue;
         m_annual_revenue := Some revenue_for_ratio;
         m_net_income := Some net;
         m_stability_score := Some stability_score;
         m_total_debt := Some total_debt;
         m_revenue_trend := Some (round revenue_trend 4) |}.

End FinancialAnalyzer.

(** ** agents/risk_assessor.py *)

Module RiskAssessor.
Import Py FinancialAnalyzer.

(** A risk flag dict: its three keys. *)
Record RiskFlag : Type := {
  severity : string;
  flag : string;
  message : string
}.

Definition check_low_dscr (dscr : Q) : option RiskFlag :=
  if Qltb dscr 1.25 then
    Some {| severity := "HIGH";
            flag := "LOW_DSCR";
            message := "DSCR of " ++ fmt_2f dscr
                       ++ " is below 1.25 minimum threshold" |}
  else None.

Definition check_unstable_revenue (volatility : Q) : option RiskFlag :=
  if Qltb 0.40 volatility then
    Some {| severity := "MEDIUM";
            flag := "UNSTABLE_REVENUE";
            message := "Revenue volatility of " ++ fmt_pct1 volatility
                       ++ " indicates unstable cash flow" |}
  else None.

Definition check_cash_flow_issues (nsf_fees : Z) : option RiskFlag :=
  if (3 <? nsf_fees)%Z then
    Some {| severity := "HIGH";
            flag := "CASH_FLOW_ISSUES";
            message := str_int nsf_fees
                       ++ " NSF fees indicate recurring cash flow problems" |}
  else None.

Definition check_high_leverage (debt_to_revenue : Q) : option RiskFlag :=
  if Qltb 0.50 debt_to_revenue then
    Some {| severity := "MEDIUM";
            flag := "HIGH_LEVERAGE";
            message := "Debt-to-revenue ratio of " ++ fmt_pct1 debt_to_revenue
                       ++ " exceeds 50% threshold" |}
  else None.

Definition check_negative_cash_flow (avg_monthly_cash_flow : Q) : option RiskFlag :=
  if Qltb avg_monthly_cash_flow 0 then
    Some {| severity := "HIGH";
            flag := "NEGATIVE_CASH_FLOW";
            message := "Negative average monthly cash flow of $"
                       ++ fmt_comma_2f avg_monthly_cash_flow |}
  else None.

Definition check_declining_revenue (revenue_trend : Q) : option RiskFlag :=
  if Qltb revenue_trend (-0.10) then
    Some {| severity := "MEDIUM";
            flag := "DECLINING_REVENUE";
            message := "Revenue declining by " ++ fmt_pct1 (Qabs revenue_trend) |}
  else None.

(** [sum(1 for f in flags if f["severity"] == sev)] *)
Definition count_severity (sev : string) (flags : list RiskFlag) : nat :=
  List.length (filter (fun f => String.eqb (severity f) sev) flags).

Definition calculate_risk_level (flags : list RiskFlag) : string :=
  match flags with
  | [] => "LOW"
  | _ :: _ =>
      let high_count := count_severity "HIGH" flags in
      let medium_count := count_severity "MEDIUM" flags in
      if (0 <? high_count)%nat then "HIGH"
      else if (3 <=? medium_count)%nat then "HIGH"
      else if (1 <=? medium_count)%nat then "MODERATE"
      else "LOW"
  end.

Definition detect_positive_signals (metrics : Metrics) (nsf_fees : Z)
    : list string :=
  let signals := [] in
  let signals :=
    append_if (Qltb 10000 (get (m_avg_monthly_cash_flow metrics) 0))
      "Strong cash flow reserves" signals in
  let signals :=
    if Qleb 1.75 (get (m_dscr metrics) 0) then append signals "Excellent DSCR"
    else if Qleb 1.5 (get (m_dscr metrics) 0) then append signals "Strong DSCR"
    else if Qleb 1.25 (get (m_dscr metrics) 0) then
      append signals "Adequate DSCR"
    else signals in
  let signals :=
    append_if (Qltb (get (m_revenue_volatility metrics) 1) 0.20)
      "Low revenue volatility" signals in
  let signals :=
    if (80 <=? get (m_stability_score metrics) 0)%Z then
      append signals "High business stability"
    else if (70 <=? get (m_stability_score metrics) 0)%Z then
      append signals "Good business stability"
    else signals in
  let signals :=
    if Qltb 0.15 (get (m_revenue_trend metrics) 0) then
      append signals "Strong revenue growth"
    else if Qltb 0 (get (m_revenue_trend metrics) 0) then
      append signals "Growing revenue"
    else signals in
  let signals := append_if (nsf_fees =? 0)%Z "Clean payment history" signals in
  let signals :=
    append_if (Qltb (get (m_debt_to_revenue metrics) 1) 0.30)
      "Low financial leverage" signals in
  signals.

(** The dict under ["risk_assessment"]: the three keys [assess] writes,
    each of which a reader of the dict may find absent. *)
Record RiskAssessment : Type := {
  risk_level : option string;
  flags : option (list RiskFlag);
  positive_signals : option (list string)
}.

(** [if flag: flags.append(flag)] *)
Definition append_flag (flags : list RiskFlag) (f : option RiskFlag)
    : list RiskFlag :=
  match f with
  | Some x => append flags x
  | None => flags
  end.

(** [RiskAssessorAgent.assess]: the six checks in their fixed order. *)
Definition assess (metrics : Metrics) (extracted_data : ExtractedData)
    : RiskAssessment :=
  let bank := get (bank_data extracted_data) no_bank_data in
  let nsf := get (nsf_fees bank) 0%Z in
  let flags := [] in
  let dscr := get (m_dscr metrics) 0 in
  let flags := append_flag flags (check_low_dscr dscr) in
  let volatility := get (m_revenue_volatility metrics) 0 in
  let flags := append_flag flags (check_unstable_revenue volatility) in
  let flags := append_flag flags (check_cash_flow_issues nsf) in
  let debt_to_revenue := get (m_debt_to_revenue metrics) 0 in
  let flags := append_flag flags (check_high_leverage debt_to_revenue) in
  let cash_flow := get (m_avg_monthly_cash_flow metrics) 0 in
  let flags := append_flag flags (check_negative_cash_flow cash_flow) in
  let revenue_trend := get (m_revenue_trend metrics) 0 in
  let flags := append_flag flags (check_declining_revenue revenue_trend) in
  {| risk_level := Some (calculate_risk_level flags);
     flags := Some flags;
     positive_signals := Some (detect_positive_signals metrics nsf) |}.

End RiskAssessor.

(** ** agents/memo_generator.py *)

Module MemoGenerator.
Import Py FinancialAnalyzer RiskAssessor.

(** The [business_info] dict. *)
Record BusinessInfo : Type := {
  bi_business_name : option string;
  bi_industry : option string;
  bi_loan_amount : option Q;
  bi_annual_interest_rate : option Q;
  bi_term_months : option Z;
  bi_business_age_years : option Z
}.

(** A recommendation dict.  [reasons] may hold [None] entries. *)
Record Recommendation : Type := {
  decision : string;
  conditions : list string;
  reasons : list (option string)
}.

(** [any(f.get("flag") == name for f in flags)] *)
Definition has_flag (name : string) (flags : list RiskFlag) : bool :=
  existsb (fun f => String.eqb (flag f) name) flags.

Definition determine_recommendation
    (risk_level : string) (dscr : Q) (stability_score : Z)
    (flags : list RiskFlag) : Recommendation :=
  let high_severity_flags :=
    filter (fun f => String.eqb (severity f) "HIGH") flags in
  if String.eqb risk_level "HIGH" && (2 <=? List.length high_severity_flags)%nat then
    {| decision := "DECLINE";
       reasons :=
         [ Some "Multiple critical risk factors identified";
           (if Qltb dscr 1 then
              Some ("DSCR of " ++ fmt_2f dscr
                    ++ " indicates insufficient debt service capacity")
            else None);
           Some "High volatility or cash flow concerns" ];
       conditions := [] |}
  else if Qltb dscr 1 then
    {| decision := "DECLINE";
       reasons :=
         [ Some ("DSCR of " ++ fmt_2f dscr ++ " is below 1.0 minimum threshold");
           Some "Insufficient cash flow to service debt" ];
       conditions := [] |}
  else if String.eqb risk_level "HIGH" || String.eqb risk_level "MODERATE" then
    let conditions := [] in
    let conditions :=
      append_if (Qltb dscr 1.35)
        "Require personal guarantee from business owner" conditions in
    let conditions :=
      append_if (stability_score <? 70)%Z
        "Require quarterly financial reporting" conditions in
    let conditions :=
      append_if (has_flag "UNSTABLE_REVENUE" flags)
        "Monitor cash flow closely for first 12 months" conditions in
    let conditions :=
      append_if (has_flag "HIGH_LEVERAGE" flags)
        "Reduce loan amount to 80% of request" conditions in
    let conditions :=
      append_if (has_flag "CASH_FLOW_ISSUES" flags)
        "Establish cash reserve requirement of 3 months expenses" conditions in
    let conditions :=
      match conditions with
      | [] => ["Standard terms with enhanced monitoring"]
      | _ :: _ => conditions
      end in
    {| decision := "APPROVE_WITH_CONDITIONS";
       conditions := conditions;
       reasons := [] |}
  else
    {| decision := "APPROVE"; conditions := []; reasons := [] |}.

(** The four components whose sum [calculate_underwriting_score] clamps. *)
Definition risk_score (risk_level : string) : Q :=
  if String.eqb risk_level "LOW" then 40
  else if String.eqb risk_level "MODERATE" then 25
  else if String.eqb risk_level "HIGH" then 10
  else 10.

Definition dscr_score (dscr : Q) : Q :=
  if Qleb 1.75 dscr then 30
  else if Qleb 1.50 dscr then 25
  else if Qleb 1.25 dscr then 20
  else if Qleb 1 dscr then 10
  else 0.

Definition stability_contribution (stability_score : Z) : Q :=
  inject_Z stability_score / 100 * 20.

Definition volatility_component (revenue_volatility : Q) : Q :=
  max 0 ((1 - min revenue_volatility 1) * 10).

Definition calculate_underwriting_score
    (risk_level : string) (dscr : Q) (stability_score : Z)
    (revenue_volatility : Q) : Z :=
  let total :=
    risk_score risk_level + dscr_score dscr
    + stability_contribution stability_score
    + volatility_component revenue_volatility in
  int (max 0 (min 100 total)).

(** The dict under ["credit_memo_output"]. *)
Record CreditMemoOutput : Type := {
  credit_memo : string;
  recommendation : string;
  underwriting_score : Z;
  out_conditions : list string;
  out_reasons : list (option string)
}.

Section Agent.

(** The memo text is produced by collaborators outside the scoring core:
    the two text builders of this file, and the chat-completion client,
    which is absent without an API key and otherwise answers a prompt
    with text ([inr]) or raises with a description ([inl]). *)
Variable build_credit_memo_prompt :
  BusinessInfo -> Metrics -> RiskAssessment -> Recommendation -> string.
Variable generate_fallback_memo :
  BusinessInfo -> Metrics -> RiskAssessment -> Recommendation -> string.
Variable client : option (string -> string + string).

(** [MemoGeneratorAgent.generate] *)
Definition generate (business_info : BusinessInfo) (metrics : Metrics)
    (assessment : RiskAssessment) : CreditMemoOutput :=
  let level := get (risk_level assessment) "UNKNOWN" in
  let fl := get (flags assessment) [] in
  let dscr := get (m_dscr metrics) 0 in
  let stability_score := get (m_stability_score metrics) 0%Z in
  let revenue_volatility := get (m_revenue_volatility metrics) 0 in
  let rec := determine_recommendation level dscr stability_score fl in
  let score :=
    calculate_underwriting_score level dscr stability_score revenue_volatility in
  let memo :=
    match client with
    | Some create =>
        let prompt :=
          build_credit_memo_prompt business_info metrics assessment rec in
        match create prompt with
        | inr content => content
        | inl e =>
            generate_fallback_memo business_info metrics assessment rec
            ++ String (ascii_of_nat 10) (String (ascii_of_nat 10)
                 ("[Note: LLM generation failed: " ++ e ++ "]"))
        end
    | None => generate_fallback_memo business_info metrics assessment rec
    end in
  {| credit_memo := memo;
     recommendation := decision rec;
     underwriting_score := score;
     out_conditions := conditions rec;
     out_reasons := reasons rec |}.

End Agent.

End MemoGenerator.

(** ** agents/orchestrator.py *)

Module Orchestrator.
Import Py FinancialAnalyzer RiskAssessor MemoGenerator.

(** The dict [analyze_loan_package] returns: the completed analysis, or
    the failure with the fault's description. *)
Inductive AnalysisResult : Type :=
| Completed
    (business_info : BusinessInfo) (financial_metrics : Metrics)
    (risk_assessment : RiskAssessment) (credit_memo : string)
    (recommendation : string) (underwriting_score : Z)
    (conditions : list string) (decline_reasons : list (option string))
| Failed (error : string) (business_info : BusinessInfo).

(** The ["status"] key. *)
Definition status (r : AnalysisResult) : string :=
  match r with
  | Completed _ _ _ _ _ _ _ _ => "completed"
  | Failed _ _ => "failed"
  end.

(** The ["underwriting_score"] key, present on a completed analysis. *)
Definition result_score (r : AnalysisResult) : option Z :=
  match r with
  | Completed _ _ _ _ _ score _ _ => Some score
  | Failed _ _ => None
  end.

(** The loan request both entry points prepare from [business_info]. *)
Definition loan_request_of (business_info : BusinessInfo) : LoanRequest :=
  {| loan_amount := Some (get (bi_loan_amount business_info) 0);
     annual_interest_rate :=
       Some (get (bi_annual_interest_rate business_info) 0.08);
     term_months := Some (get (bi_term_months business_info) 60%Z);
     business_age_years := Some (get (bi_business_age_years business_info) 0%Z) |}.

Section Agents.

Variable build_credit_memo_prompt :
  BusinessInfo -> Metrics -> RiskAssessment -> Recommendation -> string.
Variable generate_fallback_memo :
  BusinessInfo -> Metrics -> RiskAssessment -> Recommendation -> string.
Variable client : option (string -> string + string).

(** [LoanAnalysisOrchestrator.analyze_loan_package] *)
Definition analyze_loan_package
    (extracted_data : ExtractedData) (business_info : BusinessInfo)
    : AnalysisResult :=
  try_except
    (let loan_request := loan_request_of business_info in
     financial_metrics <- analyze extracted_data loan_request ;;
     let risk_assessment := assess financial_metrics extracted_data in
     let memo_output :=
       generate build_credit_memo_prompt generate_fallback_memo client
         business_info financial_metrics risk_assessment in
     ret (Completed business_info financial_metrics risk_assessment
            (credit_memo memo_output) (recommendation memo_output)
            (underwriting_score memo_output) (out_conditions memo_output)
            (out_reasons memo_output)))
    (fun e => Failed (str_exn e) business_info).

(** [LoanAnalysisOrchestrator.quick_score] *)
Definition quick_score
    (extracted_data : ExtractedData) (business_info : BusinessInfo) : Z :=
  try_except
    (let loan_request := loan_request_of business_info in
     financial_metrics <- analyze extracted_data loan_request ;;
     let risk_assessment := assess financial_metrics extracted_data in
     let metrics := financial_metrics in
     let assessment := risk_assessment in
     level <- index "risk_level" (risk_level assessment) ;;
     dscr <- index "dscr" (m_dscr metrics) ;;
     stability_score <- index "stability_score" (m_stability_score metrics) ;;
     revenue_volatility <-
       index "revenue_volatility" (m_revenue_volatility metrics) ;;
     let score :=
       calculate_underwriting_score level dscr stability_score
         revenue_volatility in
     ret score)
    (fun _ => 0%Z).

End Agents.

End Orchestrator.

(** ** api/routes.py, with the request model of api/schemas.py *)

Module Routes.
Import Py FinancialAnalyzer RiskAssessor MemoGenerator Orchestrator.

Record BankDataModel : Type := {
  rq_monthly_deposits : list Q;
  rq_monthly_withdrawals : list Q;
  rq_nsf_fees : Z
}.

Record TaxDataModel : Type := {
  rq_gross_revenue : Q;
  rq_total_expenses : Q;
  rq_net_income : Q;
  rq_tax_year : Z
}.

Record AnalyzeRequest : Type := {
  rq_business_name : string;
  rq_industry : string;
  rq_loan_amount : Q;
  rq_business_age_years : Z;
  rq_annual_interest_rate : Q;
  rq_term_months : Z;
  rq_bank_data : BankDataModel;
  rq_tax_data : option TaxDataModel;
  rq_existing_debt : Q
}.

(** The field constraints of [AnalyzeRequest] ([gt], [ge], [le]). *)
Definition validated (request : AnalyzeRequest) : Prop :=
  0 < rq_loan_amount request
  /\ (0 <= rq_business_age_years request)%Z
  /\ 0 < rq_annual_interest_rate request
  /\ rq_annual_interest_rate request <= 0.30
  /\ (0 < rq_term_months request)%Z
  /\ 0 <= rq_existing_debt request.

(** The two dicts both routes prepare from the request. *)
Definition extracted_data_of (request : AnalyzeRequest) : ExtractedData :=
  {| bank_data :=
       Some {| monthly_deposits := Some (rq_monthly_deposits (rq_bank_data request));
               monthly_withdrawals :=
                 Some (rq_monthly_withdrawals (rq_bank_data request));
               nsf_fees := Some (rq_nsf_fees (rq_bank_data request)) |};
     tax_data :=
       Some match rq_tax_data request with
            | Some t => {| gross_revenue := Some (rq_gross_revenue t);
                           net_income := Some (rq_net_income t) |}
            | None => no_tax_data
            end;
     existing_debt := Some (rq_existing_debt request) |}.

Definition business_info_of (request : AnalyzeRequest) : BusinessInfo :=
  {| bi_business_name := Some (rq_business_name request);
     bi_industry := Some (rq_industry request);
     bi_loan_amount := Some (rq_loan_amount request);
     bi_annual_interest_rate := Some (rq_annual_interest_rate request);
     bi_term_months := Some (rq_term_months request);
     bi_business_age_years := Some (rq_business_age_years request) |}.

(** [HTTPException(status_code, detail)] *)
Record HTTPException : Type := {
  status_code : Z;
  detail : string
}.

(** The body of the quick-score response. *)
Record QuickScoreResponse : Type := {
  qs_business_name : string;
  qs_underwriting_score : Z;
  qs_status : string
}.

Section Router.

Variable build_credit_memo_prompt :
  BusinessInfo -> Metrics -> RiskAssessment -> Recommendation -> string.
Variable generate_fallback_memo :
  BusinessInfo -> Metrics -> RiskAssessment -> Recommendation -> string.
Variable client : option (string -> string + string).

(** [POST /api/analyze] *)
Definition analyze_loan (request : AnalyzeRequest)
    : HTTPException + AnalysisResult :=
  let extracted_data := extracted_data_of request in
  let business_info := business_info_of request in
  let result :=
    analyze_loan_package build_credit_memo_prompt generate_fallback_memo
      client extracted_data business_info in
  match result with
  | Failed error _ => inl {| status_code := 500; detail := error |}
  | Completed _ _ _ _ _ _ _ _ => inr result
  end.

(** [POST /api/quick-score] *)
Definition quick_score_loan (request : AnalyzeRequest)
    : HTTPException + QuickScoreResponse :=
  let extracted_data := extracted_data_of request in
  let business_info := business_info_of request in
  let score := quick_score extracted_data business_info in
  inr {| qs_business_name := rq_business_name request;
         qs_underwriting_score := score;
         qs_status := "completed" |}.

End Router.

End Routes.

(** ** The specification's own words, for comparison with the code *)

Module Spec.

(** [clamp(x, lo, hi)]: [x] moved into the interval [lo .. hi]. *)
Definition clamp (x lo hi : Q) : Q :=
  if Qlt_le_dec x lo then lo else if Qlt_le_dec hi x then hi else x.


(** The closed set of flag identifiers. *)
Definition flag_identifiers : list string :=
  [ "LOW_DSCR"; "UNSTABLE_REVENUE"; "CASH_FLOW_ISSUES"; "HIGH_LEVERAGE";
    "NEGATIVE_CASH_FLOW"; "DECLINING_REVENUE" ].

(** A risk flag as the data model has it: severity [HIGH] or [MEDIUM], and
    an identifier of the closed set. *)
Definition well_formed_flag (f : RiskAssessor.RiskFlag) : Prop :=
  (RiskAssessor.severity f = "HIGH" \/ RiskAssessor.severity f = "MEDIUM")
  /\ In (RiskAssessor.flag f) flag_identifiers.

(** A check's answer is a flag of the given severity and identifier. *)
Definition flagged (answer : option RiskAssessor.RiskFlag) (sev id : string)
    : Prop :=
  exists msg,
    answer = Some {| RiskAssessor.severity := sev;
                     RiskAssessor.flag := id;
                     RiskAssessor.message := msg |}.

(** What [analyze] reads of its [extracted_data], each with the default of
    an absent key. *)
Definition bank_of (ed : FinancialAnalyzer.ExtractedData)
    : FinancialAnalyzer.BankData :=
  Py.get (FinancialAnalyzer.bank_data ed) FinancialAnalyzer.no_bank_data.
Definition deposits_of (ed : FinancialAnalyzer.ExtractedData) : list Q :=
  Py.get (FinancialAnalyzer.monthly_deposits (bank_of ed)) [].
Definition nsf_of (ed : FinancialAnalyzer.ExtractedData) : Z :=
  Py.get (FinancialAnalyzer.nsf_fees (bank_of ed)) 0%Z.



End Spec.

(** ** The assessor's rules and the pipeline's outcome, in closed form *)

Module Rules.
Import Py FinancialAnalyzer RiskAssessor MemoGenerator Orchestrator.

(** The six threshold tests of [assess], by flag identifier, over what
    [assess] reads: the metrics, an absent key read as zero, and the NSF
    count. *)
Definition threshold_crossed (metrics : Metrics) (nsf : Z) (id : string) : bool :=
  if String.eqb id "LOW_DSCR" then Qltb (get (m_dscr metrics) 0) 1.25
  else if String.eqb id "UNSTABLE_REVENUE" then
    Qltb 0.40 (get (m_revenue_volatility metrics) 0)
  else if String.eqb id "CASH_FLOW_ISSUES" then (3 <? nsf)%Z
  else if String.eqb id "HIGH_LEVERAGE" then
    Qltb 0.50 (get (m_debt_to_revenue metrics) 0)
  else if String.eqb id "NEGATIVE_CASH_FLOW" then
    Qltb (get (m_avg_monthly_cash_flow metrics) 0) 0
  else if String.eqb id "DECLINING_REVENUE" then
    Qltb (get (m_revenue_trend metrics) 0) (-0.10)
  else false.

(** The severity the check of each identifier writes. *)
Definition severity_of (id : string) : string :=
  if String.eqb id "LOW_DSCR" || String.eqb id "CASH_FLOW_ISSUES"
     || String.eqb id "NEGATIVE_CASH_FLOW"
  then "HIGH" else "MEDIUM".

(** [calculate_risk_level] on bare severities. *)
Definition level_of_severities (sevs : list string) : string :=
  calculate_risk_level
    (map (fun s => {| severity := s; flag := ""; message := "" |}) sevs).

(** The decision of [determine_recommendation] from the three things it
    depends on: the level, the DSCR and the number of [HIGH] flags. *)
Definition decision_of (level : string) (dscr : Q) (high_flags : nat) : string :=
  if String.eqb level "HIGH" && (2 <=? high_flags)%nat then "DECLINE"
  else if Qltb dscr 1 then "DECLINE"
  else if String.eqb level "HIGH" || String.eqb level "MODERATE" then
    "APPROVE_WITH_CONDITIONS"
  else "APPROVE".

(** The eleven positive signals, in the order [detect_positive_signals]
    appends them. *)
Definition signal_names : list string :=
  [ "Strong cash flow reserves"; "Excellent DSCR"; "Strong DSCR";
    "Adequate DSCR"; "Low revenue volatility"; "High business stability";
    "Good business stability"; "Strong revenue growth"; "Growing revenue";
    "Clean payment history"; "Low financial leverage" ].

(** The test under which [detect_positive_signals] appends each signal: an
    [elif] branch is taken when its own test holds and the tests before it
    in the chain fail. *)
Definition signal_earned (metrics : Metrics) (nsf : Z) (s : string) : bool :=
  let dscr := get (m_dscr metrics) 0 in
  let stability := get (m_stability_score metrics) 0%Z in
  let trend := get (m_revenue_trend metrics) 0 in
  if String.eqb s "Strong cash flow reserves" then
    Qltb 10000 (get (m_avg_monthly_cash_flow metrics) 0)
  else if String.eqb s "Excellent DSCR" then Qleb 1.75 dscr
  else if String.eqb s "Strong DSCR" then negb (Qleb 1.75 dscr) && Qleb 1.5 dscr
  else if String.eqb s "Adequate DSCR" then
    negb (Qleb 1.75 dscr) && negb (Qleb 1.5 dscr) && Qleb 1.25 dscr
  else if String.eqb s "Low revenue volatility" then
    Qltb (get (m_revenue_volatility metrics) 1) 0.20
  else if String.eqb s "High business stability" then (80 <=? stability)%Z
  else if String.eqb s "Good business stability" then
    negb (80 <=? stability)%Z && (70 <=? stability)%Z
  else if String.eqb s "Strong revenue growth" then Qltb 0.15 trend
  else if String.eqb s "Growing revenue" then
    negb (Qltb 0.15 trend) && Qltb 0 trend
  else if String.eqb s "Clean payment history" then (nsf =? 0)%Z
  else if String.eqb s "Low financial leverage" then
    Qltb (get (m_debt_to_revenue metrics) 1) 0.30
  else false.

(** An analysis result with its memo text blanked. *)
Definition without_memo (r : AnalysisResult) : AnalysisResult :=
  match r with
  | Completed bi m a _ rec score conds reasons =>
      Completed bi m a "" rec score conds reasons
  | Failed e bi => Failed e bi
  end.

End Rules.

(** ** Sample inputs *)

Module Examples.
Import FinancialAnalyzer RiskAssessor MemoGenerator Orchestrator Routes.

(** The example request of api/schemas.py. *)
Definition example_request : AnalyzeRequest :=
  {| rq_business_name := "ABC Construction LLC";
     rq_industry := "Construction";
     rq_loan_amount := 50000;
     rq_business_age_years := 5;
     rq_annual_interest_rate := 0.08;
     rq_term_months := 60;
     rq_bank_data :=
       {| rq_monthly_deposits :=
            [42000; 38000; 51000; 45000; 43000; 47000;
             46000; 44000; 49000; 45000; 44000; 46000];
          rq_monthly_withdrawals :=
            [35000; 32000; 38000; 36000; 34000; 37000;
             36000; 35000; 38000; 36000; 35000; 37000];
          rq_nsf_fees := 1 |};
     rq_tax_data :=
       Some {| rq_gross_revenue := 540000; rq_total_expenses := 420000;
               rq_net_income := 120000; rq_tax_year := 2024 |};
     rq_existing_debt := 80000 |}.

(** Its loan terms, as the request [analyze] receives. *)
Definition example_loan : LoanRequest :=
  loan_request_of (business_info_of example_request).

(** Stand-in for the memo text builders. *)
Definition no_text
    (_ : BusinessInfo) (_ : Metrics) (_ : RiskAssessment) (_ : Recommendation)
    : string := "".

(** A request the schema accepts, with a thin margin (a DSCR of 1.09) and
    four NSF fees. *)
Definition thin_margin_request : AnalyzeRequest :=
  {| rq_business_name := "ABC Construction LLC";
     rq_industry := "Construction";
     rq_loan_amount := 50000;
     rq_business_age_years := 5;
     rq_annual_interest_rate := 0.08;
     rq_term_months := 60;
     rq_bank_data :=
       {| rq_monthly_deposits := [10000; 10000];
          rq_monthly_withdrawals := [8900; 8900];
          rq_nsf_fees := 4 |};
     rq_tax_data := None;
     rq_existing_debt := 0 |}.

(** The two [HIGH] flags [assess] raises for it. *)
Definition two_high_flags : list RiskFlag :=
  [ {| severity := "HIGH"; flag := "LOW_DSCR";
       message := "DSCR of 1.09 is below 1.25 minimum threshold" |};
    {| severity := "HIGH"; flag := "CASH_FLOW_ISSUES";
       message := "4 NSF fees indicate recurring cash flow problems" |} ].

(** Bank statements with no deposits and no withdrawals, and no tax data. *)
Definition empty_statements : ExtractedData :=
  {| bank_data :=
       Some {| monthly_deposits := Some []; monthly_withdrawals := Some [];
               nsf_fees := Some 0%Z |};
     tax_data := Some no_tax_data;
     existing_debt := Some 0 |}.

(** Loan terms on which the amortization formula divides by zero: a monthly
    rate of [-2] over two months makes [(1 + r)^n - 1] vanish. *)
Definition faulting_info : BusinessInfo :=
  {| bi_business_name := Some "ABC Construction LLC";
     bi_industry := Some "Construction";
     bi_loan_amount := Some 1000;
     bi_annual_interest_rate := Some (-24);
     bi_term_months := Some 2%Z;
     bi_business_age_years := Some 5%Z |}.


(** The flag of four NSF fees, and a flag list holding it after a [MEDIUM]
    flag. *)
Definition four_nsf_flag : RiskFlag :=
  {| severity := "HIGH"; flag := "CASH_FLOW_ISSUES";
     message := "4 NSF fees indicate recurring cash flow problems" |}.

Definition mixed_flags : list RiskFlag :=
  [ {| severity := "MEDIUM"; flag := "HIGH_LEVERAGE";
       message := "Debt-to-revenue ratio of 60.0% exceeds 50% threshold" |};
    four_nsf_flag ].

End Examples.

(** * Properties *)

Import Py.

(** ** Comparisons, clamping and truncation *)

Section PyFacts.

Lemma Qltb_lt (x y : Q) : Qltb x y = true <-> x < y.
Proof. unfold Qltb, Qlt. apply Z.ltb_lt. Qed.

Lemma Qltb_ge (x y : Q) : Qltb x y = false <-> y <= x.
Proof. unfold Qltb, Qle. rewrite Z.ltb_ge. reflexivity. Qed.

Lemma Qleb_le (x y : Q) : Qleb x y = true <-> x <= y.
Proof. apply Qle_bool_iff. Qed.

Lemma Qleb_gt (x y : Q) : Qleb x y = false <-> y < x.
Proof.
  unfold Qleb. split; intro H.
  - destruct (Qlt_le_dec y x) as [L | L]; [exact L |].
    apply Qle_bool_iff in L. congruence.
  - destruct (Qle_bool x y) eqn:E; [| reflexivity].
    apply Qle_bool_iff in E. lra.
Qed.

Lemma Qeqb_eq (x y : Q) : Qeqb x y = true <-> x == y.
Proof. apply Qeq_bool_iff. Qed.

Lemma Qeqb_neq (x y : Q) : Qeqb x y = false <-> ~ x == y.
Proof.
  unfold Qeqb. split; intro H.
  - apply Qeq_bool_neq, H.
  - destruct (Qeq_bool x y) eqn:E; [| reflexivity].
    apply Qeq_bool_iff in E. contradiction.
Qed.

Lemma Qltb_spec (x y : Q) : BoolSpec (x < y) (y <= x) (Qltb x y).
Proof.
  destruct (Qltb x y) eqn:E; constructor;
    [apply Qltb_lt | apply Qltb_ge]; exact E.
Qed.

Lemma Qleb_spec (x y : Q) : BoolSpec (x <= y) (y < x) (Qleb x y).
Proof.
  destruct (Qleb x y) eqn:E; constructor;
    [apply Qleb_le | apply Qleb_gt]; exact E.
Qed.

Lemma Qeqb_spec (x y : Q) : BoolSpec (x == y) (~ x == y) (Qeqb x y).
Proof.
  destruct (Qeqb x y) eqn:E; constructor;
    [apply Qeqb_eq | apply Qeqb_neq]; exact E.
Qed.

(** The code's clamp idiom [max(0, min(100, x))] stays inside its bounds ... *)
Lemma max_min_bounds (x : Q) : 0 <= max 0 (min 100 x) <= 100.
Proof.
  unfold max, min.
  destruct (Qltb_spec x 100) as [H | H];
    [destruct (Qltb_spec 0 x) | destruct (Qltb_spec 0 100)]; lra.
Qed.

(** ... and is the specification's clamp. *)
Lemma max_min_clamp (x : Q) : max 0 (min 100 x) == Spec.clamp x 0 100.
Proof.
  unfold max, min, Spec.clamp.
  destruct (Qltb_spec x 100) as [H | H];
    [destruct (Qltb_spec 0 x) | destruct (Qltb_spec 0 100)];
    destruct (Qlt_le_dec x 0); try destruct (Qlt_le_dec 100 x); lra.
Qed.

Lemma int_nonneg (x : Q) : 0 <= x -> int x = Qfloor x.
Proof.
  destruct x as [n d]. unfold int, Qfloor, Qle. simpl. intro H.
  apply Z.quot_div_nonneg; lia.
Qed.

Lemma int_nonpos (x : Q) : x <= 0 -> int x = (- Qfloor (- x))%Z.
Proof.
  destruct x as [n d]. unfold int, Qfloor, Qle, Qopp. simpl. intro H.
  replace n with (- - n)%Z at 1 by lia.
  rewrite Z.quot_opp_l by lia.
  rewrite Z.quot_div_nonneg by lia. reflexivity.
Qed.


Lemma int_range (x : Q) : 0 <= x <= 100 -> (0 <= int x <= 100)%Z.
Proof.
  intros [L U]. rewrite (int_nonneg x L). split.
  - change 0%Z with (Qfloor 0). apply Qfloor_resp_le, L.
  - change 100%Z with (Qfloor 100). apply Qfloor_resp_le, U.
Qed.

End PyFacts.

(** Case analysis on every comparison the goal tests. *)
Ltac qcases :=
  repeat match goal with
  | |- context [Qltb ?a ?b] => destruct (Qltb_spec a b)
  | |- context [Qleb ?a ?b] => destruct (Qleb_spec a b)
  | |- context [Qeqb ?a ?b] => destruct (Qeqb_spec a b)
  end.

(** ** Scores are bounded *)

Section Scores.
Import FinancialAnalyzer MemoGenerator.



(** *** The score grows with the DSCR *)

Lemma dscr_score_monotone (d1 d2 : Q) :
  d1 <= d2 -> dscr_score d1 <= dscr_score d2.
Proof. intro H. unfold dscr_score. qcases; lra. Qed.

Lemma max_min_monotone (x y : Q) :
  x <= y -> max 0 (min 100 x) <= max 0 (min 100 y).
Proof.
  intro H.
  assert (Hm : min 100 x <= min 100 y) by (unfold min; qcases; lra).
  revert Hm. generalize (min 100 x) (min 100 y). intros a b Hab.
  unfold max. qcases; lra.
Qed.

Lemma int_monotone (x y : Q) : 0 <= x -> x <= y -> (int x <= int y)%Z.
Proof.
  intros Hx Hxy. rewrite (int_nonneg x Hx), (int_nonneg y) by lra.
  apply Qfloor_resp_le, Hxy.
Qed.

(** X1. With the risk level, the stability score and the volatility held
    fixed, [calculate_underwriting_score] never decreases when the DSCR
    grows. *)
Theorem underwriting_score_monotone_in_dscr
    (risk_level : string) (dscr dscr' : Q) (stability_score : Z)
    (revenue_volatility : Q) :
  dscr <= dscr' ->
  (calculate_underwriting_score risk_level dscr stability_score
     revenue_volatility
   <= calculate_underwriting_score risk_level dscr' stability_score
        revenue_volatility)%Z.
Proof.
  intro H. unfold calculate_underwriting_score.
  apply int_monotone; [apply max_min_bounds |].
  apply max_min_monotone. pose proof (dscr_score_monotone _ _ H). lra.
Qed.

Lemma underwriting_score_monotone_across_breakpoint :
  1.24 <= 1.25
  /\ (calculate_underwriting_score "MODERATE" 1.24 65 0.30
      <= calculate_underwriting_score "MODERATE" 1.25 65 0.30)%Z.
Proof.
  assert (H : 1.24 <= 1.25) by (unfold Qle; simpl; lia).
  split; [exact H |].
  apply (underwriting_score_monotone_in_dscr "MODERATE" 1.24 1.25 65 0.30 H).
Defined.

End Scores.

(** ** Risk checks and risk level *)

Section RiskChecks.
Import FinancialAnalyzer RiskAssessor.

(** C2. Each of the six checks is a strict comparison with its threshold:
    a value strictly past the threshold yields the flag with the documented
    severity and identifier, and any other value, the threshold itself
    included, yields no flag. *)
Theorem risk_checks_are_strict :
  (forall dscr,
      (dscr < 1.25 -> Spec.flagged (check_low_dscr dscr) "HIGH" "LOW_DSCR")
      /\ (1.25 <= dscr -> check_low_dscr dscr = None))
  /\ (forall volatility,
      (0.40 < volatility ->
       Spec.flagged (check_unstable_revenue volatility) "MEDIUM" "UNSTABLE_REVENUE")
      /\ (volatility <= 0.40 -> check_unstable_revenue volatility = None))
  /\ (forall nsf_fees,
      ((3 < nsf_fees)%Z ->
       Spec.flagged (check_cash_flow_issues nsf_fees) "HIGH" "CASH_FLOW_ISSUES")
      /\ ((nsf_fees <= 3)%Z -> check_cash_flow_issues nsf_fees = None))
  /\ (forall debt_to_revenue,
      (0.50 < debt_to_revenue ->
       Spec.flagged (check_high_leverage debt_to_revenue) "MEDIUM" "HIGH_LEVERAGE")
      /\ (debt_to_revenue <= 0.50 -> check_high_leverage debt_to_revenue = None))
  /\ (forall cash_flow,
      (cash_flow < 0 ->
       Spec.flagged (check_negative_cash_flow cash_flow) "HIGH" "NEGATIVE_CASH_FLOW")
      /\ (0 <= cash_flow -> check_negative_cash_flow cash_flow = None))
  /\ (forall revenue_trend,
      (revenue_trend < -0.10 ->
       Spec.flagged (check_declining_revenue revenue_trend) "MEDIUM" "DECLINING_REVENUE")
      /\ (-0.10 <= revenue_trend -> check_declining_revenue revenue_trend = None)).
Proof.
  unfold Spec.flagged.
  repeat split; intro H;
    match goal with
    | |- exists _, ?check ?x = _ => unfold check
    | |- ?check ?x = None => unfold check
    end;
    repeat match goal with
           | |- context [(?a <? ?b)%Z] => destruct (Z.ltb_spec a b)
           end;
    qcases; try lra; try lia; try reflexivity; eexists; reflexivity.
Qed.

(** Every answer of a check is a well-formed flag. *)
Lemma check_low_dscr_wf x f : check_low_dscr x = Some f -> Spec.well_formed_flag f.
Proof.
  unfold check_low_dscr. destruct (Qltb x 1.25); [| discriminate].
  intros [= <-]. split; simpl; auto.
Qed.

Lemma check_unstable_revenue_wf x f :
  check_unstable_revenue x = Some f -> Spec.well_formed_flag f.
Proof.
  unfold check_unstable_revenue. destruct (Qltb 0.40 x); [| discriminate].
  intros [= <-]. split; simpl; auto.
Qed.

Lemma check_cash_flow_issues_wf n f :
  check_cash_flow_issues n = Some f -> Spec.well_formed_flag f.
Proof.
  unfold check_cash_flow_issues. destruct (3 <? n)%Z; [| discriminate].
  intros [= <-]. split; simpl; auto.
Qed.

Lemma check_high_leverage_wf x f :
  check_high_leverage x = Some f -> Spec.well_formed_flag f.
Proof.
  unfold check_high_leverage. destruct (Qltb 0.50 x); [| discriminate].
  intros [= <-]. split; simpl; auto.
Qed.

Lemma check_negative_cash_flow_wf x f :
  check_negative_cash_flow x = Some f -> Spec.well_formed_flag f.
Proof.
  unfold check_negative_cash_flow. destruct (Qltb x 0); [| discriminate].
  intros [= <-]. split; simpl; auto 10.
Qed.

Lemma check_declining_revenue_wf x f :
  check_declining_revenue x = Some f -> Spec.well_formed_flag f.
Proof.
  unfold check_declining_revenue. destruct (Qltb x (-0.10)); [| discriminate].
  intros [= <-]. split; simpl; auto 10.
Qed.

Lemma append_flag_wf (fl : list RiskFlag) (answer : option RiskFlag) :
  Forall Spec.well_formed_flag fl ->
  (forall f, answer = Some f -> Spec.well_formed_flag f) ->
  Forall Spec.well_formed_flag (append_flag fl answer).
Proof.
  intros Hfl Ha. destruct answer as [f |]; simpl; [| exact Hfl].
  unfold append. apply Forall_app. split; [exact Hfl |].
  constructor; [apply Ha; reflexivity | constructor].
Qed.

(** [assess] writes all three keys; its flags are well formed and its
    level is the one [calculate_risk_level] gives them. *)
Lemma assess_flags_wf (metrics : Metrics) (extracted_data : ExtractedData) :
  exists fl,
    flags (assess metrics extracted_data) = Some fl
    /\ risk_level (assess metrics extracted_data)
       = Some (calculate_risk_level fl)
    /\ Forall Spec.well_formed_flag fl.
Proof.
  unfold assess. cbv zeta. cbn [flags risk_level].
  eexists. split; [reflexivity | split; [reflexivity |]].
  repeat (apply append_flag_wf;
          [| first [ apply check_low_dscr_wf | apply check_unstable_revenue_wf
                   | apply check_cash_flow_issues_wf | apply check_high_leverage_wf
                   | apply check_negative_cash_flow_wf
                   | apply check_declining_revenue_wf ] ]).
  constructor.
Qed.

(** On well-formed flags the two severity counts cover the whole list. *)
Lemma severity_counts_cover (fl : list RiskFlag) :
  Forall Spec.well_formed_flag fl ->
  (count_severity "HIGH" fl + count_severity "MEDIUM" fl = List.length fl)%nat.
Proof.
  unfold count_severity.
  induction 1 as [| f fl [[Hs | Hs] _] _ IH]; simpl; [reflexivity | |];
    rewrite Hs; simpl; lia.
Qed.

(** On well-formed flags the level is [LOW] only for the empty list: the
    last branch of [calculate_risk_level] is not taken. *)
Lemma risk_level_low_iff_empty (fl : list RiskFlag) :
  Forall Spec.well_formed_flag fl ->
  (calculate_risk_level fl = "LOW" <-> fl = []).
Proof.
  intro Hwf. split; [| intros ->; reflexivity].
  destruct fl as [| f fl']; [reflexivity |].
  pose proof (severity_counts_cover _ Hwf) as Hc.
  unfold calculate_risk_level.
  set (h := count_severity "HIGH" (f :: fl')) in *.
  set (m := count_severity "MEDIUM" (f :: fl')) in *.
  simpl List.length in Hc.
  destruct (Nat.ltb_spec 0 h); [discriminate |].
  destruct (Nat.leb_spec 3 m); [discriminate |].
  destruct (Nat.leb_spec 1 m); [discriminate | lia].
Qed.

(** C10. Every flag [assess] produces has severity [HIGH] or [MEDIUM] and an
    identifier of the closed six-element set; hence the risk level of an
    assessment is [LOW] exactly when its flag list is empty, and a non-empty
    flag list always has a [HIGH] or a [MEDIUM] flag to decide the level. *)
Theorem assess_flags_closed_low_iff_empty
    (metrics : Metrics) (extracted_data : ExtractedData) :
  let assessment := assess metrics extracted_data in
  exists level fl,
    risk_level assessment = Some level
    /\ flags assessment = Some fl
    /\ Forall Spec.well_formed_flag fl
    /\ (level = "LOW" <-> fl = [])
    /\ (fl = []
        \/ (0 < count_severity "HIGH" fl)%nat
        \/ (1 <= count_severity "MEDIUM" fl)%nat).
Proof.
  intro assessment.
  destruct (assess_flags_wf metrics extracted_data) as (fl & Hf & Hl & Hwf).
  exists (calculate_risk_level fl), fl.
  split; [exact Hl | split; [exact Hf | split; [exact Hwf | split]]].
  - apply risk_level_low_iff_empty. exact Hwf.
  - pose proof (severity_counts_cover _ Hwf) as Hc.
    destruct fl as [| f fl']; [left; reflexivity | right].
    simpl List.length in Hc. lia.
Qed.

End RiskChecks.

(** ** Recommendation *)

Section Recommendation.
Import FinancialAnalyzer RiskAssessor MemoGenerator Examples.

(** C3. With risk level [HIGH] and at least two [HIGH] flags the decision
    is [DECLINE] with no conditions, and the reasons are three entries: the
    multi-factor reason, the volatility reason, and between them the DSCR
    message when [dscr < 1.0] but the null placeholder [None] when
    [1.0 <= dscr]: in that case the list is not a list of strings. *)
Theorem decline_on_two_high_flags
    (risk_level : string) (dscr : Q) (stability_score : Z)
    (flags : list RiskFlag) :
  risk_level = "HIGH" ->
  (2 <= count_severity "HIGH" flags)%nat ->
  let r := determine_recommendation risk_level dscr stability_score flags in
  decision r = "DECLINE"
  /\ conditions r = []
  /\ (dscr < 1 ->
      reasons r =
        [ Some "Multiple critical risk factors identified";
          Some ("DSCR of " ++ fmt_2f dscr
                ++ " indicates insufficient debt service capacity");
          Some "High volatility or cash flow concerns" ])
  /\ (1 <= dscr ->
      reasons r =
        [ Some "Multiple critical risk factors identified";
          None;
          Some "High volatility or cash flow concerns" ]).
Proof.
  intros -> Hcount r. subst r. unfold determine_recommendation.
  unfold count_severity in Hcount.
  apply Nat.leb_le in Hcount. rewrite Hcount. simpl.
  repeat split; intro H; qcases; try lra; reflexivity.
Qed.

Lemma decline_on_two_high_flags_leaves_null_reason :
  (2 <= count_severity "HIGH" two_high_flags)%nat
  /\ reasons (determine_recommendation "HIGH" 1.09 65 two_high_flags)
     = [ Some "Multiple critical risk factors identified";
         None;
         Some "High volatility or cash flow concerns" ].
Proof.
  assert (Hc : (2 <= count_severity "HIGH" two_high_flags)%nat)
    by (vm_compute; lia).
  split; [exact Hc |].
  apply (decline_on_two_high_flags "HIGH" 1.09 65 two_high_flags eq_refl Hc).
  unfold Qle; simpl; lia.
Defined.

(** X2. [determine_recommendation] answers one of the three decisions;
    its condition list is non-empty exactly for a conditional approval, and
    its reason list is non-empty exactly for a decline. *)
Theorem recommendation_lists_follow_decision
    (risk_level : string) (dscr : Q) (stability_score : Z)
    (flags : list RiskFlag) :
  let r := determine_recommendation risk_level dscr stability_score flags in
  In (decision r) ["APPROVE"; "APPROVE_WITH_CONDITIONS"; "DECLINE"]
  /\ (conditions r <> [] <-> decision r = "APPROVE_WITH_CONDITIONS")
  /\ (reasons r <> [] <-> decision r = "DECLINE").
Proof.
  intro r. subst r. unfold determine_recommendation.
  destruct (_ && _).
  { simpl. split; [auto | split; split; intro H; congruence]. }
  destruct (Qltb dscr 1).
  { simpl. split; [auto | split; split; intro H; congruence]. }
  destruct (_ || _).
  - match goal with
    | |- context [match ?c with [] => _ | _ :: _ => _ end] => destruct c
    end; simpl; (split; [auto | split; split; intro H; congruence]).
  - simpl. split; [auto | split; split; intro H; congruence].
Qed.

End Recommendation.

(** ** The two entry points *)

Section EntryPoints.
Import FinancialAnalyzer RiskAssessor MemoGenerator Orchestrator Routes.

Variable build_credit_memo_prompt :
  BusinessInfo -> Metrics -> RiskAssessment -> Recommendation -> string.
Variable generate_fallback_memo :
  BusinessInfo -> Metrics -> RiskAssessment -> Recommendation -> string.
Variable client : option (string -> string + string).

(** Every metrics dict [analyze] returns has the three keys the score
    reads. *)
Lemma analyze_writes_score_keys
    (extracted_data : ExtractedData) (loan_request : LoanRequest)
    (metrics : Metrics) :
  analyze extracted_data loan_request = inr metrics ->
  exists dscr stability volatility,
    m_dscr metrics = Some dscr
    /\ m_stability_score metrics = Some stability
    /\ m_revenue_volatility metrics = Some volatility.
Proof.
  unfold analyze. cbv zeta.
  destruct (calculate_monthly_payment _ _ _) as [e | p1];
    cbn [bind ret Monad_either]; [discriminate |].
  destruct (calculate_monthly_payment _ _ _) as [e | p2];
    cbn [bind ret Monad_either]; [discriminate |].
  intros [= <-]. cbn [m_dscr m_stability_score m_revenue_volatility].
  do 3 eexists. repeat split.
Qed.

(** C4. Whenever the full pipeline completes, its [underwriting_score] is
    the score [quick_score] returns on the same inputs. *)
Theorem quick_score_matches_full_analysis
    (extracted_data : ExtractedData) (business_info : BusinessInfo) :
  status
    (analyze_loan_package build_credit_memo_prompt generate_fallback_memo
       client extracted_data business_info) = "completed" ->
  result_score
    (analyze_loan_package build_credit_memo_prompt generate_fallback_memo
       client extracted_data business_info)
  = Some (quick_score extracted_data business_info).
Proof.
  unfold analyze_loan_package, quick_score.
  destruct (analyze extracted_data (loan_request_of business_info))
    as [e | metrics] eqn:E; cbn [bind ret Monad_either try_except].
  - discriminate.
  - intros _.
    destruct (analyze_writes_score_keys _ _ _ E) as (d & st & v & Hd & Hs & Hv).
    destruct (assess_flags_wf metrics extracted_data) as (fl & Hf & Hl & _).
    unfold generate.
    cbn [result_score underwriting_score].
    rewrite Hd, Hs, Hv, Hl. reflexivity.
Qed.

End EntryPoints.

Section EntryPointExamples.
Import FinancialAnalyzer RiskAssessor MemoGenerator Orchestrator Routes Examples.

Lemma quick_score_matches_on_example :
  status
    (analyze_loan_package no_text no_text None
       (extracted_data_of example_request) (business_info_of example_request))
  = "completed"
  /\ result_score
       (analyze_loan_package no_text no_text None
          (extracted_data_of example_request)
          (business_info_of example_request))
     = Some (quick_score (extracted_data_of example_request)
               (business_info_of example_request)).
Proof.
  assert (H : status
    (analyze_loan_package no_text no_text None
       (extracted_data_of example_request) (business_info_of example_request))
    = "completed") by (vm_compute; reflexivity).
  split; [exact H |].
  apply (quick_score_matches_full_analysis no_text no_text None _ _ H).
Defined.

(** C5. A fault inside the deterministic pipeline is reported by
    [analyze_loan_package] as a failed analysis carrying the fault's
    description, but [quick_score] answers the same fault with the score 0,
    and the quick-score route reports every score, that one included, with
    status [completed]. *)
Theorem quick_score_masks_pipeline_fault :
  analyze empty_statements (loan_request_of faulting_info) = inl ZeroDivisionError
  /\ (forall prompt fallback client,
        analyze_loan_package prompt fallback client empty_statements faulting_info
        = Failed "float division by zero" faulting_info)
  /\ quick_score empty_statements faulting_info = 0%Z
  /\ (forall request,
        quick_score_loan request
        = inr {| qs_business_name := rq_business_name request;
                 qs_underwriting_score :=
                   quick_score (extracted_data_of request)
                     (business_info_of request);
                 qs_status := "completed" |}).
Proof.
  assert (H : analyze empty_statements (loan_request_of faulting_info)
              = inl ZeroDivisionError) by (vm_compute; reflexivity).
  split; [exact H | split; [| split]].
  - intros prompt fallback client. unfold analyze_loan_package.
    rewrite H. reflexivity.
  - unfold quick_score. rewrite H. reflexivity.
  - intro request. reflexivity.
Qed.

End EntryPointExamples.

(** ** Rounding *)

Section Rounding.

Lemma round_half_even_comp (x y : Q) :
  x == y -> round_half_even x = round_half_even y.
Proof.
  intro H. unfold round_half_even. rewrite (Qfloor_comp _ _ H).
  rewrite (Qcompare_comp (x - inject_Z (Qfloor y)) (y - inject_Z (Qfloor y))
             ltac:(rewrite H; reflexivity) _ _ (Qeq_refl _)).
  reflexivity.
Qed.

Lemma round_comp (x y : Q) (nd : nat) : x == y -> round x nd = round y nd.
Proof.
  intro H. unfold round.
  rewrite (round_half_even_comp (x * inject_Z (Zpos (pow10 nd)))
             (y * inject_Z (Zpos (pow10 nd)))); [reflexivity |].
  rewrite H. reflexivity.
Qed.

Lemma round_zero (x : Q) (nd : nat) : x == 0 -> round x nd == 0.
Proof.
  intro H. rewrite (round_comp x 0 nd H). unfold round.
  rewrite (round_half_even_comp (0 * _) 0) by ring. reflexivity.
Qed.



Lemma pow10_pos (nd : nat) : 0 < inject_Z (Zpos (pow10 nd)).
Proof. unfold Qlt. simpl. lia. Qed.



End Rounding.

(** ** Amortization *)

Section Amortization.
Import FinancialAnalyzer.








End Amortization.

(** ** Revenue volatility *)

Section Volatility.
Import FinancialAnalyzer.

Lemma fold_left_Qplus_acc (l : list Q) (a : Q) :
  fold_left Qplus l a == a + fold_left Qplus l 0.
Proof.
  revert a. induction l as [| x l IH]; intro a; simpl.
  - lra.
  - rewrite (IH (a + x)), (IH (0 + x)). lra.
Qed.

Lemma sum_cons (x : Q) (l : list Q) : sum (x :: l) == x + sum l.
Proof. unfold sum. simpl. rewrite fold_left_Qplus_acc. lra. Qed.






(** [round_sqrt y] is an integer nearest to the square root of [y]: the
    root lies within one half of it. *)
Lemma round_sqrt_nearest (y : Q) :
  0 <= y ->
  let z := inject_Z (round_sqrt y) in
  0 <= z
  /\ 4 * y <= (2 * z + 1) * (2 * z + 1)
  /\ (1 <= z -> (2 * z - 1) * (2 * z - 1) <= 4 * y).
Proof.
  intros Hy z. subst z. unfold round_sqrt.
  assert (Hf : (0 <= Qfloor y)%Z)
    by (change 0%Z with (Qfloor 0); apply Qfloor_resp_le, Hy).
  pose proof (Z.sqrt_spec (Qfloor y) Hf) as [Hlo Hhi].
  pose proof (Z.sqrt_nonneg (Qfloor y)) as Hs.
  set (s := Z.sqrt (Qfloor y)) in *.
  assert (Qlo : inject_Z s * inject_Z s <= y).
  { apply Qle_trans with (inject_Z (Qfloor y)); [| apply Qfloor_le].
    rewrite <- inject_Z_mult. rewrite <- Zle_Qle. exact Hlo. }
  assert (Qhi : y < (inject_Z s + 1) * (inject_Z s + 1)).
  { apply Qlt_le_trans with (inject_Z (Qfloor y + 1)); [apply Qlt_floor |].
    change 1 with (inject_Z 1). rewrite <- inject_Z_plus, <- inject_Z_mult.
    rewrite <- Zle_Qle. unfold Z.succ in Hhi. lia. }
  assert (Qs : 0 <= inject_Z s)
    by (change 0 with (inject_Z 0); rewrite <- Zle_Qle; exact Hs).
  destruct (Qcompare y _) eqn:C.
  - apply Qeq_alt in C.
    destruct (Z.even s); [| rewrite inject_Z_plus; change (inject_Z 1) with 1];
      (split; [| split; [| intro Hz]]; nra).
  - apply Qlt_alt in C. split; [| split; [| intro Hz]]; nra.
  - apply Qgt_alt in C. rewrite inject_Z_plus. change (inject_Z 1) with 1.
    split; [| split; [| intro Hz]]; nra.
Qed.

Lemma Qinv_neg (a : Q) : a < 0 -> / a < 0.
Proof.
  intro H. assert (E : a * / a == 1) by (apply Qmult_inv_r; lra).
  destruct (Qlt_le_dec (/ a) 0) as [L | L]; [exact L | nra].
Qed.




End Volatility.

(** ** Degraded input *)

Section DegradedInput.
Import FinancialAnalyzer Orchestrator Routes Examples.




End DegradedInput.

(** ** The repository's own test values *)

Section TestSuite.
Import FinancialAnalyzer RiskAssessor MemoGenerator Orchestrator Routes Examples.

(** tests/test_agents/test_financial_analyzer.py *)

Example test_calculate_avg_monthly_revenue :
  calculate_avg_monthly_revenue [40000; 45000; 38000; 42000; 50000; 48000]
  == 43833.33.
Proof. vm_compute. reflexivity. Qed.

Example test_calculate_revenue_volatility :
  calculate_revenue_volatility [40000; 41000; 40500; 40200; 40800] < 0.05
  /\ 0.40 < calculate_revenue_volatility [20000; 50000; 15000; 60000; 25000].
Proof. split; vm_compute; reflexivity. Qed.

Example test_calculate_monthly_payment :
  exists payment,
    calculate_monthly_payment 100000 0.08 60 = inr payment
    /\ 2000 < payment < 2100.
Proof. eexists. split; [vm_compute; reflexivity |]. split; reflexivity. Qed.

Example test_calculate_monthly_payment_zero_interest :
  exists payment,
    calculate_monthly_payment 60000 0 60 = inr payment /\ payment == 1000.
Proof. eexists. split; [vm_compute; reflexivity | reflexivity]. Qed.

Example test_calculate_dscr :
  exists dscr,
    calculate_dscr 10000 100000 0.08 60 = inr dscr /\ 4.5 < dscr < 5.5.
Proof. eexists. split; [vm_compute; reflexivity |]. split; reflexivity. Qed.

Example test_calculate_debt_to_revenue_ratio :
  calculate_debt_to_revenue_ratio 120000 400000 == 0.30.
Proof. vm_compute. reflexivity. Qed.

Example test_calculate_stability_score :
  (80 <= calculate_stability_score 0.10 8 0 0.15 <= 100)%Z
  /\ (0 <= calculate_stability_score 0.60 1 5 (-0.20) <= 40)%Z.
Proof. vm_compute. repeat split; discriminate. Qed.

(** tests/test_agents/test_risk_assessor.py *)

Example test_check_low_dscr_at_threshold :
  check_low_dscr 1.25 = None /\ check_low_dscr 1.249 <> None.
Proof. split; [reflexivity | discriminate]. Qed.

Example test_calculate_risk_level_high_multiple_medium :
  calculate_risk_level
    [ {| severity := "MEDIUM"; flag := "UNSTABLE_REVENUE"; message := "" |};
      {| severity := "MEDIUM"; flag := "HIGH_LEVERAGE"; message := "" |};
      {| severity := "MEDIUM"; flag := "DECLINING_REVENUE"; message := "" |} ]
  = "HIGH".
Proof. reflexivity. Qed.

(** tests/test_agents/test_memo_generator.py *)

Example test_calculate_underwriting_score :
  (85 <= calculate_underwriting_score "LOW" 1.75 90 0.10 <= 100)%Z
  /\ (0 <= calculate_underwriting_score "HIGH" 0.95 30 0.60 <= 40)%Z
  /\ (50 <= calculate_underwriting_score "MODERATE" 1.30 65 0.30 <= 75)%Z.
Proof. vm_compute. repeat split; discriminate. Qed.

Example test_determine_recommendation_decline :
  determine_recommendation "HIGH" 0.90 35 two_high_flags
  = {| decision := "DECLINE";
       conditions := [];
       reasons :=
         [ Some "Multiple critical risk factors identified";
           Some "DSCR of 0.90 indicates insufficient debt service capacity";
           Some "High volatility or cash flow concerns" ] |}.
Proof. vm_compute. reflexivity. Qed.

(** The example request of api/schemas.py through both routes. *)
Example example_request_is_approved :
  exists business_info metrics assessment,
    analyze_loan no_text no_text None example_request
    = inr (Completed business_info metrics assessment "" "APPROVE" 93 [] [])
    /\ m_dscr metrics = Some 3.51
    /\ risk_level assessment = Some "LOW"
    /\ quick_score_loan example_request
       = inr {| qs_business_name := "ABC Construction LLC";
                qs_underwriting_score := 93;
                qs_status := "completed" |}.
Proof.
  do 3 eexists. split; [vm_compute; reflexivity |].
  split; [reflexivity | split; [reflexivity | vm_compute; reflexivity]].
Qed.

(** A request the schema accepts whose analysis comes back with a null
    among the decline reasons, where the response model of the route
    ([decline_reasons: List[str]]) admits strings only. *)
Example thin_margin_request_returns_null_reason :
  validated thin_margin_request
  /\ exists business_info metrics,
       analyze_loan no_text no_text None thin_margin_request
       = inr (Completed business_info metrics
                {| risk_level := Some "HIGH";
                   flags := Some two_high_flags;
                   positive_signals := Some ["Low revenue volatility"] |}
                "" "DECLINE" 43 []
                [ Some "Multiple critical risk factors identified";
                  None;
                  Some "High volatility or cash flow concerns" ])
       /\ m_dscr metrics = Some 1.09.
Proof.
  split.
  - unfold validated. simpl. repeat split; (reflexivity || discriminate).
  - do 2 eexists. split; [vm_compute; reflexivity | reflexivity].
Qed.

End TestSuite.

(** * Further properties of the agents *)

(** ** Rounding keeps the order *)

Section RoundingOrder.

Lemma round_half_even_bounds (x : Q) :
  (Qfloor x <= round_half_even x <= Qfloor x + 1)%Z.
Proof.
  unfold round_half_even.
  destruct (Qcompare _ _); [destruct (Z.even _) | |]; lia.
Qed.

Lemma round_half_even_monotone (x y : Q) :
  x <= y -> (round_half_even x <= round_half_even y)%Z.
Proof.
  intro H. pose proof (Qfloor_resp_le x y H) as Hf.
  destruct (Z.eq_dec (Qfloor x) (Qfloor y)) as [E | E].
  - unfold round_half_even. cbv zeta. rewrite E.
    destruct (Qcompare (x - inject_Z (Qfloor y)) (1 # 2)) eqn:Cx;
      destruct (Qcompare (y - inject_Z (Qfloor y)) (1 # 2)) eqn:Cy;
      try (destruct (Z.even (Qfloor y))); try lia; exfalso;
      first [apply Qeq_alt in Cx | apply Qlt_alt in Cx | apply Qgt_alt in Cx];
      first [apply Qeq_alt in Cy | apply Qlt_alt in Cy | apply Qgt_alt in Cy];
      lra.
  - pose proof (round_half_even_bounds x). pose proof (round_half_even_bounds y).
    lia.
Qed.

Lemma round_monotone (x y : Q) (nd : nat) : x <= y -> round x nd <= round y nd.
Proof.
  intro H. unfold round.
  pose proof (pow10_pos nd) as Hs.
  assert (Hx : x * inject_Z (Zpos (pow10 nd)) <= y * inject_Z (Zpos (pow10 nd)))
    by nra.
  pose proof (round_half_even_monotone _ _ Hx) as R.
  set (a := round_half_even _) in *. set (b := round_half_even _) in *.
  unfold Qle. simpl. nia.
Qed.



Lemma Qeqb_comp (x x' y y' : Q) : x == x' -> y == y' -> Qeqb x y = Qeqb x' y'.
Proof. intros Hx Hy. unfold Qeqb. rewrite Hx, Hy. reflexivity. Qed.

End RoundingOrder.

(** ** The payment and the DSCR in their arguments *)

Section PaymentOrder.
Import FinancialAnalyzer.









End PaymentOrder.

(** ** Revenue volatility: order, sign and the steady series *)

Section VolatilityFacts.
Import FinancialAnalyzer.









Lemma sum_nonneg (l : list Q) : Forall (fun x => 0 <= x) l -> 0 <= sum l.
Proof.
  induction 1 as [| x l Hx _ IH]; [unfold sum; simpl; lra |].
  rewrite sum_cons. lra.
Qed.

Lemma sum_squares_nonneg (m : Q) (l : list Q) :
  0 <= sum (map (fun x => (x - m) * (x - m)) l).
Proof.
  apply sum_nonneg. apply Forall_map. apply Forall_forall. intros x _. cbv beta.
  generalize (x - m). intro d. destruct (Qlt_le_dec d 0); nra.
Qed.

Lemma len_two (a b : Q) (l : list Q) : 2 <= len (a :: b :: l).
Proof.
  unfold len. change 2 with (inject_Z 2). rewrite <- Zle_Qle.
  simpl List.length. lia.
Qed.

Lemma variance_nonneg (a b : Q) (l : list Q) :
  0 <= radicand (np_std (a :: b :: l) 1).
Proof.
  unfold np_std. cbn [radicand].
  pose proof (len_two a b l). change (inject_Z 1) with 1.
  apply Qle_shift_div_l; [lra |].
  pose proof (sum_squares_nonneg (np_mean (a :: b :: l)) (a :: b :: l)). lra.
Qed.

Lemma round_sqrt_nonneg (y : Q) : 0 <= y -> (0 <= round_sqrt y)%Z.
Proof.
  intro H. destruct (round_sqrt_nearest y H) as [Hz _].
  change 0 with (inject_Z 0) in Hz. rewrite <- Zle_Qle in Hz. exact Hz.
Qed.

(** The volatility takes the sign of the mean. *)
Lemma volatility_sign_of_mean (D : list Q) :
  (0 <= np_mean D -> 0 <= calculate_revenue_volatility D)
  /\ (np_mean D <= 0 -> calculate_revenue_volatility D <= 0).
Proof.
  destruct D as [| a [| b l]]; try (split; intros _; apply Qle_refl).
  unfold calculate_revenue_volatility. set (D := a :: b :: l).
  destruct (Qeqb_spec (np_mean D) 0) as [E | N];
    [split; intros _; apply Qle_refl |].
  unfold round_surd, surd_div. cbn [coef radicand].
  set (y := _ * _ * radicand _).
  assert (Hy : 0 <= y).
  { unfold y. pose proof (variance_nonneg a b l) as Hvar. fold D in Hvar.
    set (c := coef _ / _ * _).
    assert (0 <= c * c) by (destruct (Qlt_le_dec c 0); nra). nra. }
  pose proof (round_sqrt_nonneg y Hy) as Hz.
  unfold np_std at 1 2. cbn [coef].
  split; intro Hm.
  - assert (Hp : 0 < np_mean D).
    { destruct (Qlt_le_dec 0 (np_mean D)); [assumption |].
      exfalso; apply N; lra. }
    pose proof (Qinv_lt_0_compat _ Hp).
    destruct (Qltb_spec (1 / np_mean D) 0) as [L | L];
      [unfold Qdiv in L; lra |].
    unfold Qle. simpl. lia.
  - assert (Hp : np_mean D < 0).
    { destruct (Qlt_le_dec (np_mean D) 0); [assumption |].
      exfalso; apply N; lra. }
    pose proof (Qinv_neg _ Hp).
    destruct (Qltb_spec (1 / np_mean D) 0) as [L | L];
      [| unfold Qdiv in L; lra].
    unfold Qle. simpl. lia.
Qed.

Lemma mean_nonneg (D : list Q) :
  Forall (fun x => 0 <= x) D -> 0 <= np_mean D.
Proof.
  intro H. unfold np_mean. destruct D as [| a l].
  - unfold sum, len, Qdiv. simpl. lra.
  - apply Qle_shift_div_l; [unfold len, Qlt; simpl; lia |].
    pose proof (sum_nonneg _ H). lra.
Qed.

(** X7. On a series with no negative month the volatility is not
    negative. *)
Theorem revenue_volatility_nonneg (D : list Q) :
  Forall (fun x => 0 <= x) D -> 0 <= calculate_revenue_volatility D.
Proof.
  intro H. apply volatility_sign_of_mean. apply mean_nonneg, H.
Qed.

Lemma revenue_volatility_nonneg_on_example :
  Forall (fun x => 0 <= x) [20000; 50000; 15000]
  /\ 0 <= calculate_revenue_volatility [20000; 50000; 15000].
Proof.
  assert (H : Forall (fun x => 0 <= x) [20000; 50000; 15000])
    by (repeat constructor; unfold Qle; simpl; lia).
  split; [exact H |].
  apply (revenue_volatility_nonneg [20000; 50000; 15000] H).
Defined.





End VolatilityFacts.

(** ** The two scores in their arguments *)

Section ScoreOrder.
Import FinancialAnalyzer MemoGenerator.

Lemma clamped_component_antitone (w v v' : Q) :
  0 <= w -> v' <= v ->
  max 0 ((1 - min v 1) * w) <= max 0 ((1 - min v' 1) * w).
Proof.
  intros Hw H.
  assert (Hm : min v' 1 <= min v 1) by (unfold min; qcases; lra).
  revert Hm. generalize (min v 1) (min v' 1). intros a b Hab.
  assert (Hc : (1 - a) * w <= (1 - b) * w) by nra.
  revert Hc. generalize ((1 - a) * w) ((1 - b) * w). intros c d Hcd.
  unfold max. qcases; lra.
Qed.

Lemma age_score_monotone (a a' : Z) : (a <= a')%Z -> age_score a <= age_score a'.
Proof.
  intro H. unfold age_score, min_int.
  assert (Hz : ((if (10 <? a)%Z then 10 else a)
                <= (if (10 <? a')%Z then 10 else a'))%Z)
    by (destruct (Z.ltb_spec 10 a), (Z.ltb_spec 10 a'); lia).
  rewrite Zle_Qle in Hz.
  set (x := inject_Z _) in *. set (y := inject_Z _) in *.
  unfold Qdiv. change (/ 10) with (1 # 10). lra.
Qed.

Lemma nsf_score_antitone (n n' : Z) :
  (0 <= n' <= n)%Z -> nsf_score n <= nsf_score n'.
Proof.
  intro H. unfold nsf_score.
  destruct (Z.eqb_spec n 0), (Z.eqb_spec n' 0),
           (Z.leb_spec n 2), (Z.leb_spec n' 2),
           (Z.leb_spec n 5), (Z.leb_spec n' 5); try lia; lra.
Qed.

(** X9. [calculate_stability_score] never decreases when the volatility
    falls, the business is older, the NSF count falls (counts that are not
    negative) or the revenue trend rises. *)
Theorem stability_score_monotone
    (v v' : Q) (age age' nsf nsf' : Z) (trend trend' : Q) :
  v' <= v -> (age <= age')%Z -> (0 <= nsf' <= nsf)%Z -> trend <= trend' ->
  (calculate_stability_score v age nsf trend
   <= calculate_stability_score v' age' nsf' trend')%Z.
Proof.
  intros Hv Ha Hn Ht. unfold calculate_stability_score.
  apply int_monotone; [apply max_min_bounds |].
  apply max_min_monotone. unfold volatility_score, trend_bonus.
  assert (H40 : 0 <= 40) by (unfold Qle; simpl; lia).
  pose proof (clamped_component_antitone 40 v v' H40 Hv).
  pose proof (age_score_monotone _ _ Ha).
  pose proof (nsf_score_antitone _ _ Hn).
  lra.
Qed.

Lemma stability_score_monotone_on_example :
  0.10 <= 0.60 /\ (1 <= 8)%Z /\ (0 <= 0 <= 5)%Z /\ -0.20 <= 0.15
  /\ (calculate_stability_score 0.60 1 5 (-0.20)
      <= calculate_stability_score 0.10 8 0 0.15)%Z.
Proof.
  assert (H1 : 0.10 <= 0.60) by (unfold Qle; simpl; lia).
  assert (H2 : (1 <= 8)%Z) by lia.
  assert (H3 : (0 <= 0 <= 5)%Z) by lia.
  assert (H4 : -0.20 <= 0.15) by (unfold Qle; simpl; lia).
  split; [exact H1 | split; [exact H2 | split; [exact H3 | split; [exact H4 |]]]].
  apply (stability_score_monotone 0.60 0.10 1 8 5 0 (-0.20) 0.15 H1 H2 H3 H4).
Defined.

Lemma int_comp (x y : Q) : x == y -> int x = int y.
Proof.
  intro H. destruct (Qlt_le_dec x 0) as [L | L].
  - rewrite (int_nonpos x), (int_nonpos y) by lra.
    rewrite (Qfloor_comp (- x) (- y)); [reflexivity | rewrite H; reflexivity].
  - rewrite (int_nonneg x), (int_nonneg y) by lra.
    apply Qfloor_comp, H.
Qed.

Lemma max_min_comp (x y : Q) : x == y -> max 0 (min 100 x) == max 0 (min 100 y).
Proof.
  intro H. rewrite !max_min_clamp. unfold Spec.clamp.
  destruct (Qlt_le_dec x 0), (Qlt_le_dec y 0); try lra;
    destruct (Qlt_le_dec 100 x), (Qlt_le_dec 100 y); lra.
Qed.

(** X10. The inputs of [calculate_stability_score] saturate: past ten years
    of age, past a volatility of one and past five NSF fees a larger value
    no longer changes the score. *)
Theorem stability_score_saturates
    (v : Q) (age nsf : Z) (trend : Q) :
  ((10 <= age)%Z ->
   calculate_stability_score v age nsf trend
   = calculate_stability_score v 10 nsf trend)
  /\ (1 <= v ->
      calculate_stability_score v age nsf trend
      = calculate_stability_score 1 age nsf trend)
  /\ ((5 < nsf)%Z ->
      calculate_stability_score v age nsf trend
      = calculate_stability_score v age 6 trend).
Proof.
  unfold calculate_stability_score. repeat split; intro H;
    apply int_comp, max_min_comp.
  - unfold age_score, min_int.
    destruct (Z.ltb_spec 10 age); [reflexivity |].
    replace age with 10%Z by lia. reflexivity.
  - unfold volatility_score, min. change (Qltb 1 1) with false.
    destruct (Qltb_spec 1 v) as [L | L]; [reflexivity |].
    cbv iota. unfold max. qcases; lra.
  - unfold nsf_score.
    destruct (Z.eqb_spec nsf 0), (Z.leb_spec nsf 2), (Z.leb_spec nsf 5);
      try lia. reflexivity.
Qed.

Lemma risk_score_order (level : string) :
  risk_score "HIGH" <= risk_score level
  /\ risk_score level <= risk_score "LOW".
Proof.
  unfold risk_score.
  destruct (String.eqb_spec level "LOW") as [-> | N1]; simpl.
  - split; lra.
  - destruct (String.eqb_spec level "MODERATE") as [-> | N2]; simpl.
    + split; lra.
    + destruct (String.eqb level "HIGH"); split; lra.
Qed.

(** X11. With the risk level and the DSCR held fixed,
    [calculate_underwriting_score] never decreases when the stability score
    rises or the volatility falls. *)
Theorem underwriting_score_monotone
    (level : string) (dscr : Q) (st st' : Z) (v v' : Q) :
  (st <= st')%Z -> v' <= v ->
  (calculate_underwriting_score level dscr st v
   <= calculate_underwriting_score level dscr st' v')%Z.
Proof.
  intros Hs Hv. unfold calculate_underwriting_score.
  apply int_monotone; [apply max_min_bounds |].
  apply max_min_monotone. unfold stability_contribution, volatility_component.
  assert (H10 : 0 <= 10) by (unfold Qle; simpl; lia).
  pose proof (clamped_component_antitone 10 v v' H10 Hv).
  rewrite Zle_Qle in Hs. unfold Qdiv. change (/ 100) with (1 # 100). lra.
Qed.

Lemma underwriting_score_monotone_on_example :
  (65 <= 90)%Z /\ 0.10 <= 0.30
  /\ (calculate_underwriting_score "MODERATE" 1.30 65 0.30
      <= calculate_underwriting_score "MODERATE" 1.30 90 0.10)%Z.
Proof.
  assert (H1 : (65 <= 90)%Z) by lia.
  assert (H2 : 0.10 <= 0.30) by (unfold Qle; simpl; lia).
  split; [exact H1 | split; [exact H2 |]].
  apply (underwriting_score_monotone "MODERATE" 1.30 65 90 0.30 0.10 H1 H2).
Defined.

(** X12. With the other inputs held fixed, the underwriting score of any
    risk level string lies between the score of [HIGH] and the score of
    [LOW], and [MODERATE] never scores below [HIGH]. *)
Theorem underwriting_score_ordered_by_tier
    (level : string) (dscr : Q) (st : Z) (v : Q) :
  (calculate_underwriting_score "HIGH" dscr st v
   <= calculate_underwriting_score level dscr st v)%Z
  /\ (calculate_underwriting_score level dscr st v
      <= calculate_underwriting_score "LOW" dscr st v)%Z
  /\ (calculate_underwriting_score "HIGH" dscr st v
      <= calculate_underwriting_score "MODERATE" dscr st v)%Z.
Proof.
  unfold calculate_underwriting_score.
  destruct (risk_score_order level) as (H1 & H2).
  destruct (risk_score_order "MODERATE") as (H3 & _).
  split; [| split]; (apply int_monotone; [apply max_min_bounds |]);
    apply max_min_monotone; lra.
Qed.

(** X13. A risk level string other than [LOW], [MODERATE] and [HIGH] is
    recommended on like [LOW] by [determine_recommendation] but scored like
    [HIGH] by [calculate_underwriting_score]. *)
Theorem unrecognised_risk_level_defaults
    (level : string) (dscr : Q) (stability_score : Z) (volatility : Q)
    (fl : list RiskAssessor.RiskFlag) :
  level <> "LOW" -> level <> "MODERATE" -> level <> "HIGH" ->
  determine_recommendation level dscr stability_score fl
  = determine_recommendation "LOW" dscr stability_score fl
  /\ calculate_underwriting_score level dscr stability_score volatility
     = calculate_underwriting_score "HIGH" dscr stability_score volatility.
Proof.
  intros HL HM HH.
  apply String.eqb_neq in HL, HM, HH.
  unfold determine_recommendation, calculate_underwriting_score, risk_score.
  rewrite HL, HM, HH. split; reflexivity.
Qed.

Lemma unrecognised_risk_level_on_example :
  "UNKNOWN" <> "LOW" /\ "UNKNOWN" <> "MODERATE" /\ "UNKNOWN" <> "HIGH"
  /\ determine_recommendation "UNKNOWN" 1.5 80 []
     = determine_recommendation "LOW" 1.5 80 []
  /\ calculate_underwriting_score "UNKNOWN" 1.5 80 0.1
     = calculate_underwriting_score "HIGH" 1.5 80 0.1.
Proof.
  assert (H1 : "UNKNOWN" <> "LOW") by discriminate.
  assert (H2 : "UNKNOWN" <> "MODERATE") by discriminate.
  assert (H3 : "UNKNOWN" <> "HIGH") by discriminate.
  split; [exact H1 | split; [exact H2 | split; [exact H3 |]]].
  apply (unrecognised_risk_level_defaults "UNKNOWN" 1.5 80 0.1 [] H1 H2 H3).
Defined.

End ScoreOrder.

(** ** The risk level of a flag list *)

Section RiskLevelFacts.
Import FinancialAnalyzer RiskAssessor Examples.

Lemma count_severity_permutation (sev : string) (fl fl' : list RiskFlag) :
  Permutation fl fl' -> count_severity sev fl = count_severity sev fl'.
Proof.
  intro H. unfold count_severity.
  apply Permutation_length.
  induction H as [| x l l' _ IH | x y l | l l' l'' _ IH1 _ IH2]; simpl.
  - constructor.
  - destruct (String.eqb _ _); [constructor |]; exact IH.
  - destruct (String.eqb (severity x) sev), (String.eqb (severity y) sev);
      try apply perm_swap; apply Permutation_refl.
  - eapply Permutation_trans; eassumption.
Qed.

(** X14. [calculate_risk_level] does not depend on the order of the
    flags. *)
Theorem risk_level_ignores_flag_order (fl fl' : list RiskFlag) :
  Permutation fl fl' -> calculate_risk_level fl = calculate_risk_level fl'.
Proof.
  intro H. pose proof (Permutation_length H) as HL.
  unfold calculate_risk_level.
  rewrite (count_severity_permutation "HIGH" _ _ H),
          (count_severity_permutation "MEDIUM" _ _ H).
  destruct fl, fl'; try discriminate; reflexivity.
Qed.

Lemma risk_level_ignores_flag_order_on_example :
  Permutation mixed_flags (rev mixed_flags)
  /\ calculate_risk_level mixed_flags = calculate_risk_level (rev mixed_flags).
Proof.
  assert (H : Permutation mixed_flags (rev mixed_flags))
    by apply Permutation_rev.
  split; [exact H |].
  apply (risk_level_ignores_flag_order mixed_flags (rev mixed_flags) H).
Defined.

Lemma count_severity_pos (sev : string) (f : RiskFlag) (fl : list RiskFlag) :
  In f fl -> severity f = sev -> (0 < count_severity sev fl)%nat.
Proof.
  intros Hin Hs. unfold count_severity.
  assert (Hf : In f (filter (fun g => String.eqb (severity g) sev) fl)).
  { apply filter_In. split; [exact Hin |]. apply String.eqb_eq, Hs. }
  destruct (filter _ fl); [contradiction | simpl; lia].
Qed.

(** X15. One flag of severity [HIGH] anywhere in the list makes the risk
    level [HIGH], whatever the other flags are. *)
Theorem one_high_flag_makes_risk_high (f : RiskFlag) (fl : list RiskFlag) :
  In f fl -> severity f = "HIGH" -> calculate_risk_level fl = "HIGH".
Proof.
  intros Hin Hs. pose proof (count_severity_pos _ _ _ Hin Hs) as Hc.
  unfold calculate_risk_level. destruct fl; [contradiction |].
  apply Nat.ltb_lt in Hc. rewrite Hc. reflexivity.
Qed.

Lemma one_high_flag_makes_risk_high_on_example :
  In four_nsf_flag mixed_flags
  /\ severity four_nsf_flag = "HIGH"
  /\ calculate_risk_level mixed_flags = "HIGH".
Proof.
  assert (H1 : In four_nsf_flag mixed_flags)
    by (simpl; right; left; reflexivity).
  assert (H2 : severity four_nsf_flag = "HIGH") by reflexivity.
  split; [exact H1 | split; [exact H2 |]].
  apply (one_high_flag_makes_risk_high four_nsf_flag mixed_flags H1 H2).
Defined.

Lemma count_severity_map (sev : string) (fl : list RiskFlag) :
  count_severity sev fl
  = List.length (filter (fun s => String.eqb s sev) (map severity fl)).
Proof.
  unfold count_severity. induction fl as [| f fl IH]; [reflexivity |].
  simpl. destruct (String.eqb (severity f) sev); simpl; rewrite IH; reflexivity.
Qed.

(** The level depends on the severities alone. *)
Lemma risk_level_of_severities (fl : list RiskFlag) :
  calculate_risk_level fl = Rules.level_of_severities (map severity fl).
Proof.
  unfold Rules.level_of_severities, calculate_risk_level, count_severity.
  assert (H : forall sev,
    List.length (filter (fun f => String.eqb (severity f) sev) fl)
    = List.length (filter (fun f => String.eqb (severity f) sev)
        (map (fun s => {| severity := s; flag := ""; message := "" |})
           (map severity fl)))).
  { intro sev. induction fl as [| f fl IH]; [reflexivity |].
    simpl. destruct (String.eqb (severity f) sev); simpl; rewrite IH; reflexivity. }
  rewrite <- !H. destruct fl; reflexivity.
Qed.

Lemma risk_level_enumerated (fl : list RiskFlag) :
  In (calculate_risk_level fl) ["LOW"; "MODERATE"; "HIGH"].
Proof.
  unfold calculate_risk_level. destruct fl; [simpl; auto |].
  destruct (_ <? _)%nat; [simpl; auto |].
  destruct (3 <=? _)%nat; [simpl; auto |].
  destruct (1 <=? _)%nat; simpl; auto.
Qed.

End RiskLevelFacts.

(** ** Lists built by conditional appends *)

Section ListSegments.

Lemma append_if_app {A : Type} (c : bool) (x : A) (xs : list A) :
  append_if c x xs = (xs ++ (if c then [x] else []))%list.
Proof. destruct c; simpl; [reflexivity | rewrite app_nil_r; reflexivity]. Qed.

Lemma tier3_app {A : Type} (c1 c2 c3 : bool) (a b c : A) (xs : list A) :
  (if c1 then append xs a else if c2 then append xs b
   else if c3 then append xs c else xs)
  = (xs ++ (if c1 then [a] else if c2 then [b] else if c3 then [c] else []))%list.
Proof.
  destruct c1, c2, c3; simpl; try reflexivity; rewrite app_nil_r; reflexivity.
Qed.

Lemma tier2_app {A : Type} (c1 c2 : bool) (a b : A) (xs : list A) :
  (if c1 then append xs a else if c2 then append xs b else xs)
  = (xs ++ (if c1 then [a] else if c2 then [b] else []))%list.
Proof.
  destruct c1, c2; simpl; try reflexivity; rewrite app_nil_r; reflexivity.
Qed.

Lemma in_segment {A : Type} (c : bool) (x s : A) :
  In s (if c then [x] else []) <-> c = true /\ x = s.
Proof. destruct c; simpl; intuition discriminate. Qed.

Lemma in_tier2 {A : Type} (c1 c2 : bool) (a b s : A) :
  In s (if c1 then [a] else if c2 then [b] else [])
  <-> (c1 = true /\ a = s) \/ (c1 = false /\ c2 = true /\ b = s).
Proof. destruct c1, c2; simpl; intuition discriminate. Qed.

Lemma in_tier3 {A : Type} (c1 c2 c3 : bool) (a b c s : A) :
  In s (if c1 then [a] else if c2 then [b] else if c3 then [c] else [])
  <-> (c1 = true /\ a = s)
      \/ (c1 = false /\ c2 = true /\ b = s)
      \/ (c1 = false /\ c2 = false /\ c3 = true /\ c = s).
Proof. destruct c1, c2, c3; simpl; intuition discriminate. Qed.

Lemma tier3_segments {A : Type} (c1 c2 c3 : bool) (a b c : A) :
  (if c1 then [a] else if c2 then [b] else if c3 then [c] else [])
  = ((if c1 then [a] else [])
     ++ (if negb c1 && c2 then [b] else [])
     ++ (if negb c1 && negb c2 && c3 then [c] else []))%list.
Proof. destruct c1, c2, c3; reflexivity. Qed.

Lemma tier2_segments {A : Type} (c1 c2 : bool) (a b : A) :
  (if c1 then [a] else if c2 then [b] else [])
  = ((if c1 then [a] else []) ++ (if negb c1 && c2 then [b] else []))%list.
Proof. destruct c1, c2; reflexivity. Qed.

Lemma filter_cons_segment {A : Type} (f : A -> bool) (x : A) (l : list A) :
  filter f (x :: l) = ((if f x then [x] else []) ++ filter f l)%list.
Proof. simpl. destruct (f x); reflexivity. Qed.

End ListSegments.

(** Membership in the signal list, segment by segment. *)
Ltac signals_by_segment :=
  unfold RiskAssessor.detect_positive_signals; cbv zeta;
  rewrite ?append_if_app, ?tier3_app, ?tier2_app;
  rewrite ?in_app_iff, ?in_segment, ?in_tier2, ?in_tier3;
  rewrite ?Qltb_lt, ?Qltb_ge, ?Qleb_le, ?Qleb_gt, ?Z.leb_le, ?Z.leb_gt,
    ?Z.eqb_eq;
  simpl In.

(** Evaluate the level of a closed list of severities. *)
Ltac level_by_computation :=
  match goal with
  | |- context [Rules.level_of_severities ?l] =>
      let x := eval vm_compute in (Rules.level_of_severities l) in
      change (Rules.level_of_severities l) with x
  end.

(** ** What [assess] answers, rule by rule *)

Section AssessRules.
Import FinancialAnalyzer RiskAssessor.

Lemma append_flag_ids (fl : list RiskFlag) (answer : option RiskFlag) :
  map flag (append_flag fl answer)
  = (map flag fl ++ match answer with Some f => [flag f] | None => [] end)%list.
Proof.
  destruct answer; simpl; [| rewrite app_nil_r; reflexivity].
  unfold append. rewrite map_app. reflexivity.
Qed.

Lemma append_flag_severities (fl : list RiskFlag) (answer : option RiskFlag) :
  map severity (append_flag fl answer)
  = (map severity fl
     ++ match answer with Some f => [severity f] | None => [] end)%list.
Proof.
  destruct answer; simpl; [| rewrite app_nil_r; reflexivity].
  unfold append. rewrite map_app. reflexivity.
Qed.

(** The three keys [assess] writes: the flags are those of the crossed
    thresholds in the order of the checks, each with the severity of its
    rule. *)
Lemma assess_closed_form (metrics : Metrics) (extracted_data : ExtractedData) :
  exists fl,
    assess metrics extracted_data
    = {| risk_level := Some (calculate_risk_level fl);
         flags := Some fl;
         positive_signals :=
           Some (detect_positive_signals metrics
                   (Spec.nsf_of extracted_data)) |}
    /\ map flag fl
       = filter (Rules.threshold_crossed metrics (Spec.nsf_of extracted_data))
           Spec.flag_identifiers
    /\ map severity fl = map Rules.severity_of (map flag fl).
Proof.
  unfold Spec.nsf_of, Spec.bank_of, assess. cbv zeta.
  eexists. split; [reflexivity |].
  rewrite !append_flag_ids, !append_flag_severities. cbn [map app].
  unfold Spec.flag_identifiers. cbn [filter].
  unfold Rules.threshold_crossed. cbn [String.eqb Ascii.eqb Bool.eqb].
  unfold check_low_dscr, check_unstable_revenue, check_cash_flow_issues,
    check_high_leverage, check_negative_cash_flow, check_declining_revenue.
  destruct (Qltb (get (m_dscr metrics) 0) 1.25);
    destruct (Qltb 0.40 (get (m_revenue_volatility metrics) 0));
    destruct (3 <? _)%Z;
    destruct (Qltb 0.50 (get (m_debt_to_revenue metrics) 0));
    destruct (Qltb (get (m_avg_monthly_cash_flow metrics) 0) 0);
    destruct (Qltb (get (m_revenue_trend metrics) 0) (-0.10));
    split; reflexivity.
Qed.

Lemma flag_raised_iff (metrics : Metrics) (nsf : Z) (name : string) :
  In name (filter (Rules.threshold_crossed metrics nsf) Spec.flag_identifiers)
  <-> Rules.threshold_crossed metrics nsf name = true.
Proof.
  rewrite filter_In. split; [intros [_ H]; exact H |].
  intro H. split; [| exact H].
  unfold Rules.threshold_crossed in H. unfold Spec.flag_identifiers.
  repeat match type of H with
         | context [String.eqb name ?b] =>
             destruct (String.eqb_spec name b) as [E | _];
             [rewrite E; simpl; auto 10 |]
         end.
  discriminate H.
Qed.

(** X16. The flags [assess] returns are exactly the flags of the crossed
    thresholds, in the fixed order of the six checks, with an absent metric
    read as zero and an absent NSF count as none. *)
Theorem assess_raises_crossed_thresholds_in_order
    (metrics : Metrics) (extracted_data : ExtractedData) :
  exists fl,
    flags (assess metrics extracted_data) = Some fl
    /\ map flag fl
       = filter (Rules.threshold_crossed metrics (Spec.nsf_of extracted_data))
           Spec.flag_identifiers.
Proof.
  destruct (assess_closed_form metrics extracted_data) as (fl & Ha & Hid & _).
  exists fl. rewrite Ha. split; [reflexivity | exact Hid].
Qed.

(** X17. The risk level [assess] returns, from the metrics: [HIGH] when the
    DSCR is below 1.25, the NSF count above 3 or the cash flow negative, or
    when volatility, leverage and trend are all past their thresholds;
    [MODERATE] when only one or two of these last three are; [LOW]
    otherwise. *)
Theorem assess_risk_tier_table
    (metrics : Metrics) (extracted_data : ExtractedData) :
  let dscr := get (m_dscr metrics) 0 in
  let volatility := get (m_revenue_volatility metrics) 0 in
  let nsf := Spec.nsf_of extracted_data in
  let leverage := get (m_debt_to_revenue metrics) 0 in
  let cash_flow := get (m_avg_monthly_cash_flow metrics) 0 in
  let trend := get (m_revenue_trend metrics) 0 in
  let high := dscr < 1.25 \/ (3 < nsf)%Z \/ cash_flow < 0 in
  let medium_any := 0.40 < volatility \/ 0.50 < leverage \/ trend < -0.10 in
  let medium_all := 0.40 < volatility /\ 0.50 < leverage /\ trend < -0.10 in
  exists level,
    risk_level (assess metrics extracted_data) = Some level
    /\ (level = "HIGH" <-> high \/ medium_all)
    /\ (level = "MODERATE" <-> ~ high /\ medium_any /\ ~ medium_all)
    /\ (level = "LOW" <-> ~ high /\ ~ medium_any).
Proof.
  cbv zeta.
  destruct (assess_closed_form metrics extracted_data) as (fl & Ha & Hid & Hsev).
  rewrite Ha. cbn [risk_level]. eexists. split; [reflexivity |].
  rewrite risk_level_of_severities, Hsev, Hid. clear Ha Hid Hsev fl.
  unfold Spec.flag_identifiers, Spec.nsf_of, Spec.bank_of. cbn [filter].
  unfold Rules.threshold_crossed. cbn [String.eqb Ascii.eqb Bool.eqb].
  destruct (Qltb_spec (get (m_dscr metrics) 0) 1.25);
    destruct (Qltb_spec 0.40 (get (m_revenue_volatility metrics) 0));
    destruct (Z.ltb_spec 3
                (get (nsf_fees (get (bank_data extracted_data) no_bank_data))
                   0%Z));
    destruct (Qltb_spec 0.50 (get (m_debt_to_revenue metrics) 0));
    destruct (Qltb_spec (get (m_avg_monthly_cash_flow metrics) 0) 0);
    destruct (Qltb_spec (get (m_revenue_trend metrics) 0) (-0.10));
    level_by_computation;
    (split; [| split]); (split; [intro E; try discriminate E | intro E]);
    try reflexivity; solve [intuition (try lra; try lia)].
Qed.

(** The signal list is the list of the earned signals, in the order of the
    tests. *)
Lemma signals_closed_form (metrics : Metrics) (nsf : Z) :
  detect_positive_signals metrics nsf
  = filter (Rules.signal_earned metrics nsf) Rules.signal_names.
Proof.
  unfold detect_positive_signals. cbv zeta.
  rewrite ?append_if_app, ?tier3_app, ?tier2_app.
  rewrite tier3_segments, !tier2_segments.
  unfold Rules.signal_names. rewrite !filter_cons_segment.
  unfold Rules.signal_earned. cbv zeta. cbn [String.eqb Ascii.eqb Bool.eqb filter].
  rewrite <- !app_assoc. rewrite app_nil_r. reflexivity.
Qed.

Lemma signal_listed_iff (metrics : Metrics) (nsf : Z) (s : string) :
  In s (detect_positive_signals metrics nsf)
  <-> Rules.signal_earned metrics nsf s = true.
Proof.
  rewrite signals_closed_form, filter_In. split; [intros [_ H]; exact H |].
  intro H. split; [| exact H].
  unfold Rules.signal_earned in H. cbv zeta in H. unfold Rules.signal_names.
  repeat match type of H with
         | context [String.eqb s ?b] =>
             destruct (String.eqb_spec s b) as [E | _];
             [rewrite E; simpl; auto 20 |]
         end.
  discriminate H.
Qed.

(** Read the boolean tests of a goal as propositions. *)
Ltac tests_as_props :=
  unfold Rules.threshold_crossed, Rules.signal_earned; cbv zeta;
  cbn [String.eqb Ascii.eqb Bool.eqb];
  rewrite ?andb_true_iff, ?negb_true_iff, ?Qltb_lt, ?Qltb_ge, ?Qleb_le,
    ?Qleb_gt, ?Z.ltb_lt, ?Z.leb_le, ?Z.leb_gt, ?Z.eqb_eq.

(** X18. Which positive signal [detect_positive_signals] lists when: each of
    the eleven signals appears exactly under its own condition on the
    metrics, the DSCR, stability and trend signals being the highest tier
    reached; an absent volatility or leverage reads as 1, any other absent
    metric as 0. *)
Theorem positive_signal_conditions (metrics : Metrics) (nsf : Z) (s : string) :
  let cash_flow := get (m_avg_monthly_cash_flow metrics) 0 in
  let dscr := get (m_dscr metrics) 0 in
  let volatility := get (m_revenue_volatility metrics) 1 in
  let stability := get (m_stability_score metrics) 0%Z in
  let trend := get (m_revenue_trend metrics) 0 in
  let leverage := get (m_debt_to_revenue metrics) 1 in
  In s (detect_positive_signals metrics nsf)
  <-> (10000 < cash_flow /\ s = "Strong cash flow reserves")
      \/ (1.75 <= dscr /\ s = "Excellent DSCR")
      \/ (1.5 <= dscr < 1.75 /\ s = "Strong DSCR")
      \/ (1.25 <= dscr < 1.5 /\ s = "Adequate DSCR")
      \/ (volatility < 0.20 /\ s = "Low revenue volatility")
      \/ ((80 <= stability)%Z /\ s = "High business stability")
      \/ ((70 <= stability < 80)%Z /\ s = "Good business stability")
      \/ (0.15 < trend /\ s = "Strong revenue growth")
      \/ (0 < trend <= 0.15 /\ s = "Growing revenue")
      \/ (nsf = 0%Z /\ s = "Clean payment history")
      \/ (leverage < 0.30 /\ s = "Low financial leverage").
Proof.
  cbv zeta. signals_by_segment.
  intuition (subst; auto 20; try lra; try lia).
Qed.


Lemma level_with_high_head (sevs : list string) :
  Rules.level_of_severities ("HIGH" :: sevs) = "HIGH".
Proof. reflexivity. Qed.

(** X20. Keys missing from the dicts [assess] reads. Without a DSCR the
    [LOW_DSCR] flag is raised and the level is [HIGH]; without a volatility
    or a leverage the metric earns neither its flag nor its signal; without
    an NSF count no NSF flag is raised and the clean-history signal is
    listed. *)
Theorem assess_reads_absent_keys_as_defaults
    (metrics : Metrics) (extracted_data : ExtractedData) :
  exists level fl signals,
    assess metrics extracted_data
    = {| risk_level := Some level; flags := Some fl;
         positive_signals := Some signals |}
    /\ (m_dscr metrics = None ->
        In "LOW_DSCR" (map flag fl) /\ level = "HIGH")
    /\ (m_revenue_volatility metrics = None ->
        ~ In "UNSTABLE_REVENUE" (map flag fl)
        /\ ~ In "Low revenue volatility" signals)
    /\ (m_debt_to_revenue metrics = None ->
        ~ In "HIGH_LEVERAGE" (map flag fl)
        /\ ~ In "Low financial leverage" signals)
    /\ (nsf_fees (Spec.bank_of extracted_data) = None ->
        ~ In "CASH_FLOW_ISSUES" (map flag fl)
        /\ In "Clean payment history" signals).
Proof.
  destruct (assess_closed_form metrics extracted_data) as (fl & Ha & Hid & Hsev).
  do 3 eexists. split; [exact Ha |].
  rewrite risk_level_of_severities, Hsev, Hid, !flag_raised_iff,
    !signal_listed_iff.
  unfold Spec.nsf_of, Spec.flag_identifiers. cbn [filter].
  tests_as_props.
  split; [| split; [| split]]; intro H; rewrite H; cbn [get].
  - split; [unfold Qlt; simpl; lia |].
    change (Qltb 0 1.25) with true. cbv iota. cbn [map].
    apply level_with_high_head.
  - split; intro G; lra.
  - split; intro G; lra.
  - split; [intro G; lia | reflexivity].
Qed.

End AssessRules.

(** ** From the metrics to the decision and the score *)

Section DecisionAndScore.
Import FinancialAnalyzer RiskAssessor MemoGenerator Orchestrator Routes Examples.

Variable build_credit_memo_prompt :
  BusinessInfo -> Metrics -> RiskAssessment -> Recommendation -> string.
Variable generate_fallback_memo :
  BusinessInfo -> Metrics -> RiskAssessment -> Recommendation -> string.
Variable client : option (string -> string + string).

Lemma decision_reads_three (level : string) (dscr : Q) (st : Z)
    (fl : list RiskFlag) :
  decision (determine_recommendation level dscr st fl)
  = Rules.decision_of level dscr (count_severity "HIGH" fl).
Proof.
  unfold determine_recommendation, Rules.decision_of, count_severity.
  destruct (_ && _); [reflexivity |].
  destruct (Qltb dscr 1); [reflexivity |].
  destruct (_ || _); reflexivity.
Qed.

Lemma decision_enumerated (level : string) (d : Q) (st : Z) (fl : list RiskFlag) :
  In (decision (determine_recommendation level d st fl))
    ["APPROVE"; "APPROVE_WITH_CONDITIONS"; "DECLINE"].
Proof.
  rewrite decision_reads_three. unfold Rules.decision_of.
  destruct (_ && _); [simpl; auto |].
  destruct (Qltb d 1); [simpl; auto |].
  destruct (_ || _); simpl; auto.
Qed.

(** X21. The recommendation of [generate] on the assessment [assess] makes
    of the same metrics, from the metrics: [APPROVE] exactly when no
    threshold is crossed; [DECLINE] exactly when the DSCR is below 1 or at
    least two of the three [HIGH] rules fire (DSCR below 1.25, more than 3
    NSF fees, negative cash flow); [APPROVE_WITH_CONDITIONS] in every other
    case. *)
Theorem pipeline_decision_table
    (business_info : BusinessInfo) (metrics : Metrics)
    (extracted_data : ExtractedData) :
  let dscr := get (m_dscr metrics) 0 in
  let volatility := get (m_revenue_volatility metrics) 0 in
  let nsf := Spec.nsf_of extracted_data in
  let leverage := get (m_debt_to_revenue metrics) 0 in
  let cash_flow := get (m_avg_monthly_cash_flow metrics) 0 in
  let trend := get (m_revenue_trend metrics) 0 in
  let no_flag :=
    1.25 <= dscr /\ volatility <= 0.40 /\ (nsf <= 3)%Z /\ leverage <= 0.50
    /\ 0 <= cash_flow /\ -0.10 <= trend in
  let two_high :=
    (dscr < 1.25 /\ (3 < nsf)%Z) \/ (dscr < 1.25 /\ cash_flow < 0)
    \/ ((3 < nsf)%Z /\ cash_flow < 0) in
  let answer :=
    recommendation
      (generate build_credit_memo_prompt generate_fallback_memo client
         business_info metrics (assess metrics extracted_data)) in
  (answer = "APPROVE" <-> no_flag)
  /\ (answer = "DECLINE" <-> dscr < 1 \/ two_high)
  /\ (answer = "APPROVE_WITH_CONDITIONS"
      <-> ~ no_flag /\ ~ (dscr < 1 \/ two_high)).
Proof.
  cbv zeta.
  destruct (assess_closed_form metrics extracted_data) as (fl & Ha & Hid & Hsev).
  rewrite Ha. unfold generate.
  cbn [recommendation risk_level flags get].
  rewrite decision_reads_three, risk_level_of_severities, count_severity_map.
  rewrite Hsev, Hid. clear Ha Hid Hsev fl.
  unfold Spec.flag_identifiers, Spec.nsf_of, Spec.bank_of. cbn [filter].
  unfold Rules.threshold_crossed. cbn [String.eqb Ascii.eqb Bool.eqb].
  unfold Rules.decision_of.
  destruct (Qltb_spec (get (m_dscr metrics) 0) 1);
  destruct (Qltb_spec (get (m_dscr metrics) 0) 1.25);
    destruct (Qltb_spec 0.40 (get (m_revenue_volatility metrics) 0));
    destruct (Z.ltb_spec 3
                (get (nsf_fees (get (bank_data extracted_data) no_bank_data))
                   0%Z));
    destruct (Qltb_spec 0.50 (get (m_debt_to_revenue metrics) 0));
    destruct (Qltb_spec (get (m_avg_monthly_cash_flow metrics) 0) 0);
    destruct (Qltb_spec (get (m_revenue_trend metrics) 0) (-0.10));
    try (exfalso; lra);
    match goal with
    | |- context [if ?c then "DECLINE" else _] =>
        let x := eval vm_compute in c in change c with x
    end; cbv iota;
    try match goal with
    | |- context [if ?c then "APPROVE_WITH_CONDITIONS" else _] =>
        let x := eval vm_compute in c in change c with x
    end; cbv iota;
    (split; [| split]); (split; [intro E; try discriminate E | intro E]);
    try reflexivity; solve [intuition (try lra; try lia)].
Qed.











(** X24. [quick_score] always answers an integer between 0 and 100, and it
    answers 0 whenever the full analysis of the same inputs fails. *)
Theorem quick_score_in_range_zero_on_failure
    (extracted_data : ExtractedData) (business_info : BusinessInfo) :
  (0 <= quick_score extracted_data business_info <= 100)%Z
  /\ (status
        (analyze_loan_package build_credit_memo_prompt generate_fallback_memo
           client extracted_data business_info) = "failed" ->
      quick_score extracted_data business_info = 0%Z).
Proof.
  unfold quick_score, analyze_loan_package.
  destruct (analyze extracted_data (loan_request_of business_info))
    as [e | metrics] eqn:E; cbn [bind ret Monad_either try_except].
  - split; [lia | reflexivity].
  - split; [| discriminate].
    destruct (index "risk_level" _) as [e | level];
      cbn [bind ret Monad_either try_except]; [lia |].
    destruct (index "dscr" _) as [e | d];
      cbn [bind ret Monad_either try_except]; [lia |].
    destruct (index "stability_score" _) as [e | st];
      cbn [bind ret Monad_either try_except]; [lia |].
    destruct (index "revenue_volatility" _) as [e | v];
      cbn [bind ret Monad_either try_except]; [lia |].
    apply int_range, max_min_bounds.
Qed.

(** X25. Every completed analysis keeps the enumerations and ranges of the
    response: the recommendation is one of the three decisions, the score
    and the stability score lie between 0 and 100, the risk level is [LOW],
    [MODERATE] or [HIGH], and the assessment has its three keys, with
    well-formed flags. *)
Theorem completed_analysis_enumerations
    (extracted_data : ExtractedData) (business_info : BusinessInfo)
    (bi : BusinessInfo) (m : Metrics) (a : RiskAssessment) (memo rec : string)
    (score : Z) (conds : list string) (reasons : list (option string)) :
  analyze_loan_package build_credit_memo_prompt generate_fallback_memo client
    extracted_data business_info
  = Completed bi m a memo rec score conds reasons ->
  In rec ["APPROVE"; "APPROVE_WITH_CONDITIONS"; "DECLINE"]
  /\ (0 <= score <= 100)%Z
  /\ (exists level fl signals,
        a = {| risk_level := Some level; flags := Some fl;
               positive_signals := Some signals |}
        /\ In level ["LOW"; "MODERATE"; "HIGH"]
        /\ Forall Spec.well_formed_flag fl)
  /\ (exists stability,
        m_stability_score m = Some stability /\ (0 <= stability <= 100)%Z).
Proof.
  unfold analyze_loan_package.
  destruct (analyze extracted_data (loan_request_of business_info))
    as [e | m'] eqn:E; cbn [bind ret Monad_either try_except]; [discriminate |].
  remember (generate build_credit_memo_prompt generate_fallback_memo client
              business_info m' (assess m' extracted_data)) as out eqn:Eout.
  remember (assess m' extracted_data) as a' eqn:Ea.
  intro H. injection H as _ Hm Ha _ Hrec Hscore _ _. subst m' a rec score.
  destruct (assess_closed_form m extracted_data) as (fl & Hc & _ & _).
  destruct (assess_flags_wf m extracted_data) as (fl' & Hf & _ & Hwf).
  rewrite Hc in Hf. cbn [flags] in Hf. injection Hf as <-.
  split; [| split; [| split]].
  - rewrite Eout. unfold generate. cbn [recommendation].
    apply decision_enumerated.
  - rewrite Eout. unfold generate. cbn [underwriting_score].
    apply int_range, max_min_bounds.
  - do 3 eexists. rewrite Ea.
    split; [exact Hc | split; [apply risk_level_enumerated | exact Hwf]].
  - revert E. unfold analyze. cbv zeta.
    destruct (calculate_monthly_payment _ _ _) as [e | p1];
      cbn [bind ret Monad_either]; [discriminate |].
    destruct (calculate_monthly_payment _ _ _) as [e | p2];
      cbn [bind ret Monad_either]; [discriminate |].
    intros [= <-]. cbn [m_stability_score]. eexists. split; [reflexivity |].
    apply int_range, max_min_bounds.
Qed.

End DecisionAndScore.

Section DecisionAndScoreExamples.
Import FinancialAnalyzer RiskAssessor MemoGenerator Orchestrator Routes Examples.



Lemma completed_analysis_enumerations_on_example :
  exists bi m a,
    analyze_loan_package no_text no_text None
      (extracted_data_of example_request) (business_info_of example_request)
    = Completed bi m a "" "APPROVE" 93 [] []
    /\ In "APPROVE" ["APPROVE"; "APPROVE_WITH_CONDITIONS"; "DECLINE"]
    /\ (0 <= 93 <= 100)%Z
    /\ (exists level fl signals,
          a = {| risk_level := Some level; flags := Some fl;
                 positive_signals := Some signals |}
          /\ In level ["LOW"; "MODERATE"; "HIGH"]
          /\ Forall Spec.well_formed_flag fl)
    /\ (exists stability,
          m_stability_score m = Some stability /\ (0 <= stability <= 100)%Z).
Proof.
  do 3 eexists.
  match goal with
  | |- ?E /\ _ => assert (H : E) by (vm_compute; reflexivity)
  end.
  split; [exact H |].
  exact (completed_analysis_enumerations no_text no_text None
           _ _ _ _ _ _ _ _ _ _ H).
Defined.

End DecisionAndScoreExamples.

(** ** The memo text and the outcome; the DSCR of [analyze] *)

Section Outcome.
Import FinancialAnalyzer RiskAssessor MemoGenerator Orchestrator Routes Examples.

(** X26. The memo collaborators (the prompt builder, the fallback memo and
    the chat client, present or absent, answering or failing) change
    nothing of an analysis but its memo text: status, metrics, assessment,
    recommendation, score, conditions and reasons are the same. *)
Theorem memo_text_never_changes_outcome
    (prompt fallback prompt' fallback' :
       BusinessInfo -> Metrics -> RiskAssessment -> Recommendation -> string)
    (client client' : option (string -> string + string))
    (extracted_data : ExtractedData) (business_info : BusinessInfo) :
  Rules.without_memo
    (analyze_loan_package prompt fallback client extracted_data business_info)
  = Rules.without_memo
      (analyze_loan_package prompt' fallback' client' extracted_data
         business_info).
Proof.
  unfold analyze_loan_package.
  destruct (analyze extracted_data (loan_request_of business_info));
    cbn [bind ret Monad_either try_except Rules.without_memo];
    [reflexivity |].
  unfold generate.
  cbn [recommendation underwriting_score out_conditions out_reasons].
  reflexivity.
Qed.

(** X27. With no existing debt, the DSCR [analyze] reports is the one
    [calculate_dscr] computes from the same loan terms and the unrounded
    average cash flow whose rounding [analyze] reports. *)
Theorem analyze_dscr_without_existing_debt
    (extracted_data : ExtractedData) (loan_request : LoanRequest)
    (metrics : Metrics) :
  get (existing_debt extracted_data) 0 == 0 ->
  analyze extracted_data loan_request = inr metrics ->
  exists cash_flow dscr,
    m_avg_monthly_cash_flow metrics = Some (round cash_flow 2)
    /\ m_dscr metrics = Some dscr
    /\ calculate_dscr cash_flow (get (loan_amount loan_request) 0)
         (get (annual_interest_rate loan_request) 0.08)
         (get (term_months loan_request) 60%Z)
       = inr dscr.
Proof.
  intros Hdebt. unfold analyze, calculate_dscr. cbv zeta.
  destruct (calculate_monthly_payment (get (loan_amount loan_request) 0) _ _)
    as [e | p1]; cbn [bind ret Monad_either]; [discriminate |].
  unfold calculate_monthly_payment at 1.
  destruct (Qeqb_spec (get (existing_debt extracted_data) 0) 0) as [_ | N];
    [| contradiction].
  cbn [orb bind ret Monad_either].
  intros [= <-]. cbn [m_avg_monthly_cash_flow m_dscr].
  do 2 eexists. split; [reflexivity | split; [reflexivity |]].
  rewrite (Qeqb_comp (p1 + 0) p1 0 0) by (try reflexivity; ring).
  destruct (Qeqb p1 0); [reflexivity |].
  f_equal. apply round_comp. rewrite Qplus_0_r. reflexivity.
Qed.

Lemma analyze_dscr_without_existing_debt_on_example :
  get (existing_debt (extracted_data_of thin_margin_request)) 0 == 0
  /\ exists metrics cash_flow dscr,
       analyze (extracted_data_of thin_margin_request)
         (loan_request_of (business_info_of thin_margin_request))
       = inr metrics
       /\ m_avg_monthly_cash_flow metrics = Some (round cash_flow 2)
       /\ m_dscr metrics = Some dscr
       /\ calculate_dscr cash_flow 50000 0.08 60 = inr dscr.
Proof.
  assert (H0 : get (existing_debt (extracted_data_of thin_margin_request)) 0
               == 0) by reflexivity.
  split; [exact H0 |].
  eexists.
  match goal with
  | |- exists c d, ?E /\ _ => assert (H : E) by (vm_compute; reflexivity)
  end.
  destruct (analyze_dscr_without_existing_debt _ _ _ H0 H)
    as (cf & d & H1 & H2 & H3).
  exists cf, d. split; [exact H | split; [exact H1 | split; [exact H2 |]]].
  exact H3.
Defined.

End Outcome.

(** ** The averages and the leverage ratio *)

Section RevenueAndLeverage.
Import FinancialAnalyzer Orchestrator Routes Examples.

Lemma round_half_even_Z (z : Z) : round_half_even (inject_Z z) = z.
Proof.
  unfold round_half_even. cbv zeta. rewrite Qfloor_Z.
  destruct (Qcompare (inject_Z z - inject_Z z) (1 # 2)) eqn:C; [| reflexivity |];
    exfalso; [apply Qeq_alt in C | apply Qgt_alt in C]; lra.
Qed.

(** Rounding what is already rounded changes nothing. *)
Lemma round_idempotent (x : Q) (nd : nat) : round (round x nd) nd = round x nd.
Proof.
  unfold round at 1 3. f_equal.
  set (z := round_half_even (x * inject_Z (Zpos (pow10 nd)))).
  transitivity (round_half_even (inject_Z z)); [| apply round_half_even_Z].
  apply round_half_even_comp. unfold round. fold z.
  unfold Qeq. simpl. lia.
Qed.

(** X28. The [avg_monthly_revenue] [analyze] reports is the value of
    [calculate_avg_monthly_revenue] on the deposits: rounding it a second
    time, as [analyze] does, changes nothing. *)
Theorem analyze_reports_the_average_revenue
    (extracted_data : ExtractedData) (loan_request : LoanRequest)
    (metrics : Metrics) :
  analyze extracted_data loan_request = inr metrics ->
  exists revenue,
    m_avg_monthly_revenue metrics = Some revenue
    /\ revenue
       == calculate_avg_monthly_revenue (Spec.deposits_of extracted_data).
Proof.
  unfold analyze, Spec.deposits_of, Spec.bank_of. cbv zeta.
  destruct (calculate_monthly_payment _ _ _) as [e | p1];
    cbn [bind ret Monad_either]; [discriminate |].
  destruct (calculate_monthly_payment _ _ _) as [e | p2];
    cbn [bind ret Monad_either]; [discriminate |].
  intros [= <-]. cbn [m_avg_monthly_revenue].
  eexists. split; [reflexivity |].
  unfold calculate_avg_monthly_revenue.
  destruct (get (monthly_deposits (get (bank_data extracted_data) no_bank_data))
              []) as [| a l].
  - apply round_zero. reflexivity.
  - cbv zeta. rewrite round_idempotent. reflexivity.
Qed.

Lemma analyze_reports_the_average_revenue_on_example :
  exists metrics revenue,
    analyze (extracted_data_of example_request) example_loan = inr metrics
    /\ m_avg_monthly_revenue metrics = Some revenue
    /\ revenue
       == calculate_avg_monthly_revenue
            (Spec.deposits_of (extracted_data_of example_request)).
Proof.
  eexists.
  match goal with
  | |- exists r, ?E /\ _ => assert (H : E) by (vm_compute; reflexivity)
  end.
  destruct (analyze_reports_the_average_revenue _ _ _ H) as (r & H1 & H2).
  exists r. split; [exact H | split; [exact H1 | exact H2]].
Defined.

(** X29. At a positive annual revenue, more debt on less revenue never
    lowers [calculate_debt_to_revenue_ratio]: the ratio is monotone in the
    debt and, for a debt that is not negative, antitone in the revenue. *)
Theorem debt_to_revenue_monotone (debt debt' revenue revenue' : Q) :
  0 <= debt -> debt <= debt' -> 0 < revenue' -> revenue' <= revenue ->
  calculate_debt_to_revenue_ratio debt revenue
  <= calculate_debt_to_revenue_ratio debt' revenue'.
Proof.
  intros H0 Hd Hr Hr'. unfold calculate_debt_to_revenue_ratio.
  destruct (Qeqb_spec revenue 0) as [E | _]; [lra |].
  destruct (Qeqb_spec revenue' 0) as [E | _]; [lra |].
  cbv zeta. apply round_monotone.
  apply Qle_shift_div_r; [lra |].
  assert (E : debt' / revenue' * revenue' == debt') by (field; lra).
  assert (Hq : 0 <= debt' / revenue') by (apply Qle_shift_div_l; lra).
  nra.
Qed.

Lemma debt_to_revenue_monotone_on_example :
  0 <= 120000 /\ 120000 <= 130000 /\ 0 < 400000 /\ 400000 <= 540000
  /\ calculate_debt_to_revenue_ratio 120000 540000
     <= calculate_debt_to_revenue_ratio 130000 400000.
Proof.
  assert (H1 : 0 <= 120000) by (unfold Qle; simpl; lia).
  assert (H2 : 120000 <= 130000) by (unfold Qle; simpl; lia).
  assert (H3 : 0 < 400000) by reflexivity.
  assert (H4 : 400000 <= 540000) by (unfold Qle; simpl; lia).
  split; [exact H1 | split; [exact H2 | split; [exact H3 | split; [exact H4 |]]]].
  apply (debt_to_revenue_monotone 120000 130000 540000 400000 H1 H2 H3 H4).
Defined.

End RevenueAndLeverage.
